(** * SensorPy: sensor lifecycle machines and their coordinator

    A shallow embedding of [sensorpy] (the three sensor classes
    [STC31CSensor], [SHTC3Sensor], [SPS30Sensor] and the [SensorManager]
    that owns them), followed by the properties of its specification.

    Python objects carry mutable attributes and raise exceptions; both are
    kept explicit.  A method of a class whose attributes are the record [S]
    is a function [S -> world -> outcome A * S * world]: attribute writes
    made before a [raise] stay visible afterwards, exactly as in Python.
    The shared C library reached through [ctypes] is the only collaborator:
    it is a [driver] answering each command with an integer status and the
    content of the out-parameters, as a function of everything that happened
    before. *)

From Stdlib Require Import ZArith String Ascii List Bool Lia.
From Stdlib Require Import PrimFloat.
From Stdlib Require DecimalString HexadecimalString.
From stdpp Require Import gmap strings.

Local Open Scope string_scope.
Local Open Scope Z_scope.

(** ** ctypes structures ([structures.py]) *)

Record SPS30_Measurement : Type := {
  mc_1p0 : float;
  mc_2p5 : float;
  mc_4p0 : float;
  mc_10p0 : float;
  nc_0p5 : float;
  nc_1p0 : float;
  nc_2p5 : float;
  nc_4p0 : float;
  nc_10p0 : float;
  typical_particle_size : float
}.

Record SPS30_VersionInfo : Type := {
  firmware_major : Z;
  firmware_minor : Z;
  hardware_revision : Z;
  shdlc_major : Z;
  shdlc_minor : Z
}.

(** A freshly constructed ctypes object is zero-initialised. *)
Definition zero_measurement : SPS30_Measurement :=
  {| mc_1p0 := 0; mc_2p5 := 0; mc_4p0 := 0; mc_10p0 := 0;
     nc_0p5 := 0; nc_1p0 := 0; nc_2p5 := 0; nc_4p0 := 0; nc_10p0 := 0;
     typical_particle_size := 0 |}%float.

Definition zero_version : SPS30_VersionInfo :=
  {| firmware_major := 0; firmware_minor := 0; hardware_revision := 0;
     shdlc_major := 0; shdlc_minor := 0 |}.

(** ** The driver library *)

(** One constructor per C function the package calls, with the arguments
    it passes.  [c_uint8(n)] and [c_uint16(n)] truncate silently, which the
    callers below write out; a [c_float(x)] argument is recorded as the
    Python float [x] it was built from. *)
Inductive cmd : Type :=
| sensirion_i2c_hal_init
| stc3x_init (address : Z)
| stc3x_set_binary_gas (binary_gas : Z)
| stc3x_enable_automatic_self_calibration
| stc3x_disable_automatic_self_calibration
| stc3x_set_relative_humidity (humidity : float)
| stc3x_set_temperature (temperature : float)
| stc3x_measure_gas_concentration
| stc3x_get_product_id
| stc3x_forced_recalibration (reference : Z)
| stc3x_enter_sleep_mode
| stc3x_exit_sleep_mode
| sht4x_init (address : Z)
| sht4x_measure_high_precision
| sht4x_measure_medium_precision
| sht4x_measure_lowest_precision
| sht4x_serial_number
| sht4x_soft_reset
| sensirion_uart_open
| sensirion_uart_close
| sps30_probe
| sps30_read_version
| sps30_get_serial
| sps30_set_fan_auto_cleaning_interval_days (days : Z)
| sps30_get_fan_auto_cleaning_interval_days
| sps30_start_measurement
| sps30_stop_measurement
| sps30_read_measurement
| sps30_sleep
| sps30_wake_up
| sps30_start_manual_fan_cleaning
| sps30_reset.

(** What a call leaves in the out-parameters handed to it. *)
Inductive output : Type :=
| OutNothing
| OutFloats (first second : float)
| OutProduct (product_id serial_number : Z)
| OutWord (value : Z)
| OutVersion (v : SPS30_VersionInfo)
| OutChars (s : string)
| OutMeasurement (m : SPS30_Measurement).

Record resp : Type := { status : Z; out : output }.

(** Reading an out-parameter back: the buffers start zeroed, so a call that
    wrote nothing of the expected shape leaves zeros. *)
Definition out_floats (r : resp) : float * float :=
  match out r with OutFloats a b => (a, b) | _ => (0, 0)%float end.
Definition out_product (r : resp) : Z * Z :=
  match out r with OutProduct p s => (p, s) | _ => (0, 0) end.
Definition out_word (r : resp) : Z :=
  match out r with OutWord z => z | _ => 0 end.
Definition out_version (r : resp) : SPS30_VersionInfo :=
  match out r with OutVersion v => v | _ => zero_version end.
Definition out_chars (r : resp) : string :=
  match out r with OutChars s => s | _ => "" end.
Definition out_measurement (r : resp) : SPS30_Measurement :=
  match out r with OutMeasurement m => m | _ => zero_measurement end.

(** ** Exceptions ([exceptions.py], the builtins the package raises, and
    the two that [ctypes] and [bytes.decode] raise on its behalf) *)

Inductive detail : Type :=
| DStr (s : string)
| DInt (z : Z)
| DFloat (f : float).

Inductive sensor_error_class : Type := InitializationError | ReadError.

Inductive exn : Type :=
| SensorError (cls : sensor_error_class) (sensor_name message : string)
    (error_code : option Z) (details : list (string * detail))
| ValueError (message : string)
| NotImplementedError (message : string)
| KeyError (key : string)
| AttributeError
| AssertionError
| UnicodeDecodeError
| ArgumentError.

Definition is_ReadError (e : exn) : bool :=
  match e with SensorError ReadError _ _ _ _ => true | _ => false end.
Definition is_InitializationError (e : exn) : bool :=
  match e with SensorError InitializationError _ _ _ _ => true | _ => false end.
Definition is_NotImplementedError (e : exn) : bool :=
  match e with NotImplementedError _ => true | _ => false end.
Definition is_ValueError (e : exn) : bool :=
  match e with ValueError _ => true | _ => false end.

Definition exn_message (e : exn) : string :=
  match e with
  | SensorError _ _ m _ _ => m
  | ValueError m => m
  | NotImplementedError m => m
  | KeyError k => k
  | AttributeError => ""
  | AssertionError => ""
  | UnicodeDecodeError => ""
  | ArgumentError => ""
  end.

Definition exn_code (e : exn) : option Z :=
  match e with SensorError _ _ _ c _ => c | _ => None end.

(** ** Observable events *)

Inductive level : Type := DEBUG | INFO | WARNING | ERROR.

(** A log record keeps the format string and, for the handlers that log
    [str(e)], the exception it was rendered from. *)
Inductive event : Type :=
| Bus (c : cmd) (r : resp)
| Delay (milliseconds : Z)
| Log (lvl : level) (fmt : string) (arg : option exn).

(** The trace holds the newest event first. *)
Record world : Type := {
  driver : list event -> cmd -> resp;
  trace : list event
}.

Definition emit (e : event) (w : world) : world :=
  {| driver := driver w; trace := e :: trace w |}.

(** ** Methods: state, effects and exceptions *)

Inductive outcome (A : Type) : Type :=
| Return (a : A)
| Raise (e : exn).
Arguments Return {A} a.
Arguments Raise {A} e.

Definition M (S A : Type) : Type := S -> world -> outcome A * S * world.

Definition ret {S A} (a : A) : M S A := fun s w => (Return a, s, w).

Definition bind {S A B} (m : M S A) (k : A -> M S B) : M S B :=
  fun s w =>
    match m s w with
    | (Return a, s', w') => k a s' w'
    | (Raise e, s', w') => (Raise e, s', w')
    end.

Definition raise {S A} (e : exn) : M S A := fun s w => (Raise e, s, w).

Definition get {S} : M S S := fun s w => (Return s, s, w).

Definition modify {S} (f : S -> S) : M S unit := fun s w => (Return tt, f s, w).

(** [self._lib.f(...)]: the library answers from the history so far. *)
Definition call {S} (c : cmd) : M S resp :=
  fun s w => let r := driver w (trace w) c in (Return r, s, emit (Bus c r) w).

Definition time_sleep {S} (milliseconds : Z) : M S unit :=
  fun s w => (Return tt, s, emit (Delay milliseconds) w).

Definition logger {S} (lvl : level) (fmt : string) (arg : option exn) : M S unit :=
  fun s w => (Return tt, s, emit (Log lvl fmt arg) w).

(** [try: body except <handles> as e: handler e]. *)
Definition try_except {S A} (body : M S A) (handles : exn -> bool)
    (handler : exn -> M S A) : M S A :=
  fun s w =>
    match body s w with
    | (Return a, s', w') => (Return a, s', w')
    | (Raise e, s', w') =>
        if handles e then handler e s' w' else (Raise e, s', w')
    end.

Declare Scope py_scope.
Delimit Scope py_scope with py.
Notation "x <- m ;; k" := (bind m (fun x => k))
  (at level 100, m at next level, k at level 200, right associativity) : py_scope.
Notation "m ;; k" := (bind m (fun _ => k))
  (at level 100, k at level 200, right associativity) : py_scope.
Local Open Scope py_scope.

(** [assert cond]. *)
Definition assert_ {S} (cond : bool) : M S unit :=
  if cond then ret tt else raise AssertionError.

(** ** Values of the dictionaries the methods return *)

(** [get_info] dictionaries hold strings and integers. *)
Inductive info_value : Type :=
| IStr (s : string)
| IInt (z : Z).

Fixpoint string_map (f : ascii -> ascii) (s : string) : string :=
  match s with
  | EmptyString => EmptyString
  | String c rest => String (f c) (string_map f rest)
  end.

Definition upper (c : ascii) : ascii :=
  let n := nat_of_ascii c in
  if (97 <=? n)%nat && (n <=? 122)%nat then ascii_of_nat (n - 32) else c.

(** [f"{n:X}"] for a non-negative [n]. *)
Definition format_X (n : Z) : string :=
  string_map upper (HexadecimalString.NilZero.string_of_uint (N.to_hex_uint (Z.to_N n))).

(** [f"{n}"] for an integer. *)
Definition format_d (n : Z) : string :=
  DecimalString.NilZero.string_of_int (Z.to_int n).

(** ** At the [ctypes] boundary *)

(** A Python [int] passed to a foreign function that has no [argtypes]:
    [ctypes] accepts it when it fits a C [unsigned long] or a C [long]
    (64 bits for the Linux shared library the package loads) and raises
    [ArgumentError] otherwise; the function receives it as a C [int], that
    is, its low 32 bits read as a signed number. *)
Definition C_LONG_MIN : Z := - 2 ^ 63.
Definition C_ULONG_MAX : Z := 2 ^ 64 - 1.

Definition fits_c_long (n : Z) : bool := (C_LONG_MIN <=? n) && (n <=? C_ULONG_MAX).

Definition c_int (n : Z) : Z := (n + 2 ^ 31) mod 2 ^ 32 - 2 ^ 31.

(** [buffer.value] of a [c_char] array of [len] bytes: the bytes up to the
    first NUL.  The driver's output is the content of the buffer; what it
    leaves unwritten is zero. *)
Fixpoint until_nul (s : string) : string :=
  match s with
  | EmptyString => EmptyString
  | String c rest => if Ascii.eqb c Ascii.zero then EmptyString else String c (until_nul rest)
  end.

Definition c_char_array_value (len : nat) (buffer : string) : string :=
  until_nul (substring 0 len buffer).

Fixpoint byte_values (s : string) : list N :=
  match s with
  | EmptyString => []
  | String c rest => N_of_ascii c :: byte_values rest
  end.

Definition between (lo hi b : N) : bool := ((lo <=? b) && (b <=? hi))%N.

Definition continuation (b : N) : bool := between 0x80 0xBF b.

(** The second byte of a three-byte and of a four-byte sequence: overlong
    forms, surrogates and code points above U+10FFFF are refused. *)
Definition second_of_three (b0 b1 : N) : bool :=
  if (b0 =? 0xE0)%N then between 0xA0 0xBF b1
  else if (b0 =? 0xED)%N then between 0x80 0x9F b1
  else continuation b1.

Definition second_of_four (b0 b1 : N) : bool :=
  if (b0 =? 0xF0)%N then between 0x90 0xBF b1
  else if (b0 =? 0xF4)%N then between 0x80 0x8F b1
  else continuation b1.

(** Do the bytes decode as UTF-8?  [bytes.decode()] is strict: it raises
    [UnicodeDecodeError] exactly when they do not. *)
Fixpoint utf8_valid (l : list N) : bool :=
  match l with
  | [] => true
  | b0 :: r =>
      if (b0 <=? 0x7F)%N then utf8_valid r
      else if between 0xC2 0xDF b0 then
        match r with
        | b1 :: r1 => continuation b1 && utf8_valid r1
        | _ => false
        end
      else if between 0xE0 0xEF b0 then
        match r with
        | b1 :: b2 :: r2 => second_of_three b0 b1 && continuation b2 && utf8_valid r2
        | _ => false
        end
      else if between 0xF0 0xF4 b0 then
        match r with
        | b1 :: b2 :: b3 :: r3 =>
            second_of_four b0 b1 && continuation b2 && continuation b3 && utf8_valid r3
        | _ => false
        end
      else false
  end.

(** [b.decode()]: a decoded string is kept as its UTF-8 bytes. *)
Definition decode (b : string) : option string :=
  if utf8_valid (byte_values b) then Some b else None.

Arguments fits_c_long n : simpl never.
Arguments c_int n : simpl never.
Arguments decode b : simpl never.

(** ** [STC31CSensor] ([stc31c_sensor.py]) *)

Module STC31CSensor.

Record t : Type := {
  _initialized : bool;
  _sleeping : bool;
  _enable_asc : bool
}.

Definition __init__ (self_calibration : bool) : t :=
  {| _initialized := false; _sleeping := false; _enable_asc := self_calibration |}.

Definition set_initialized (b : bool) (s : t) : t :=
  {| _initialized := b; _sleeping := _sleeping s; _enable_asc := _enable_asc s |}.
Definition set_sleeping (b : bool) (s : t) : t :=
  {| _initialized := _initialized s; _sleeping := b; _enable_asc := _enable_asc s |}.

Definition enable_automatic_self_calibration : M t unit :=
  r <- call stc3x_enable_automatic_self_calibration ;;
  if negb (status r =? 0) then
    raise (SensorError ReadError "STC31-C" "Enabling automatic self-calibration failed"
             (Some (status r))
             [("operation", DStr "stc3x_enable_automatic_self_calibration")])
  else time_sleep 10.

Definition disable_automatic_self_calibration : M t unit :=
  r <- call stc3x_disable_automatic_self_calibration ;;
  if negb (status r =? 0) then
    raise (SensorError ReadError "STC31-C" "Disabling automatic self-calibration failed"
             (Some (status r))
             [("operation", DStr "stc3x_disable_automatic_self_calibration")])
  else time_sleep 10.

Definition initialize : M t unit :=
  r <- call sensirion_i2c_hal_init ;;
  if negb (status r =? 0) then
    raise (SensorError InitializationError "STC31-C" "Failed to initialize I²C interface"
             (Some (status r)) [("operation", DStr "sensirion_i2c_hal_init")])
  else
    _ <- call (stc3x_init 0x29) ;;
    r <- call (stc3x_set_binary_gas 19) ;;
    if negb (status r =? 0) then
      raise (SensorError InitializationError "STC31-C"
               "Failed to set binary gas configuration" (Some (status r))
               [("operation", DStr "stc3x_set_binary_gas"); ("gas_config", DInt 19)])
    else
      s <- get ;;
      (if _enable_asc s then enable_automatic_self_calibration
       else disable_automatic_self_calibration) ;;
      time_sleep 50 ;;
      modify (set_initialized true) ;;
      modify (set_sleeping false).

Definition read (temperature humidity : option float) : M t (gmap string float) :=
  s <- get ;;
  if negb (_initialized s) then
    raise (SensorError ReadError "STC31-C" "Sensor not initialized" (Some (-1))
             [("operation", DStr "read")])
  else
    match temperature, humidity with
    | Some temperature, Some humidity =>
        error <- call (stc3x_set_relative_humidity humidity) ;;
        if negb (status error =? 0) then
          raise (SensorError ReadError "STC31-C"
                   "Failed to set relative humidity for compensation"
                   (Some (status error))
                   [("operation", DStr "stc3x_set_relative_humidity");
                    ("humidity", DFloat humidity)])
        else
          error <- call (stc3x_set_temperature temperature) ;;
          if negb (status error =? 0) then
            raise (SensorError ReadError "STC31-C"
                     "Failed to set temperature for compensation"
                     (Some (status error))
                     [("operation", DStr "stc3x_set_temperature");
                      ("temperature", DFloat temperature)])
          else
            r <- call stc3x_measure_gas_concentration ;;
            if negb (status r =? 0) then
              raise (SensorError ReadError "STC31-C" "Failed to read gas concentration"
                       (Some (status r))
                       [("operation", DStr "stc3x_measure_gas_concentration")])
            else
              let '(co2_vol, temperature_out) := out_floats r in
              let co2_ppm := (co2_vol * 10000)%float in
              ret (<["co2_concentration" := co2_ppm]>
                     (<["temperature" := temperature_out]> ∅))
    | _, _ =>
        raise (ValueError
                 "STC31CSensor.read() requires 'temperature' and 'humidity' values.")
    end.

Definition get_info : M t (gmap string info_value) :=
  error <- call stc3x_get_product_id ;;
  if negb (status error =? 0) then
    raise (SensorError ReadError "STC31-C" "Failed to retrieve product info"
             (Some (status error)) [("operation", DStr "stc3x_get_product_id")])
  else
    let '(product_id, serial_number) := out_product error in
    ret (<["product_id" := IInt (product_id mod 2 ^ 32)]>
           (<["serial_number" := IStr (format_X (serial_number mod 2 ^ 64))]> ∅)).

Definition forced_recalibration (reference_concentration : Z) : M t unit :=
  r <- call (stc3x_forced_recalibration (reference_concentration mod 2 ^ 16)) ;;
  if negb (status r =? 0) then
    raise (SensorError ReadError "STC31-C" "Forced recalibration failed"
             (Some (status r))
             [("operation", DStr "stc3x_forced_recalibration");
              ("reference", DInt reference_concentration)])
  else ret tt.

Definition sleep : M t unit :=
  r <- call stc3x_enter_sleep_mode ;;
  if negb (status r =? 0) then
    raise (SensorError ReadError "STC31-C" "Entering sleep mode failed"
             (Some (status r)) [("operation", DStr "stc3x_enter_sleep_mode")])
  else modify (set_sleeping true).

Definition wake_up : M t unit :=
  r <- call stc3x_exit_sleep_mode ;;
  if negb (status r =? 0) then
    raise (SensorError ReadError "STC31-C" "Exiting sleep mode failed"
             (Some (status r)) [("operation", DStr "stc3x_exit_sleep_mode")])
  else modify (set_sleeping false).

(** The public operations, as a caller can invoke them. *)
Inductive method : Type :=
| Initialize
| Read (temperature humidity : option float)
| GetInfo
| ForcedRecalibration (reference_concentration : Z)
| EnableAutomaticSelfCalibration
| DisableAutomaticSelfCalibration
| Sleep
| WakeUp.

Definition discard {A} (m : M t A) : M t unit := _ <- m ;; ret tt.

Definition dispatch (op : method) : M t unit :=
  match op with
  | Initialize => initialize
  | Read temperature humidity => discard (read temperature humidity)
  | GetInfo => discard get_info
  | ForcedRecalibration r => forced_recalibration r
  | EnableAutomaticSelfCalibration => enable_automatic_self_calibration
  | DisableAutomaticSelfCalibration => disable_automatic_self_calibration
  | Sleep => sleep
  | WakeUp => wake_up
  end.

End STC31CSensor.

(** ** [SHTC3Sensor] ([shtc3_sensor.py]) *)

Module SHTC3Sensor.

(** [_sleeping] comes from [SensorBase.__init__]. *)
Record t : Type := {
  i2c_address : Z;
  _initialized : bool;
  _sleeping : bool
}.

Definition __init__ (i2c_address : Z) : t :=
  {| i2c_address := i2c_address; _initialized := false; _sleeping := false |}.

Definition default_i2c_address : Z := 0x44.

Definition set_initialized (b : bool) (s : t) : t :=
  {| i2c_address := i2c_address s; _initialized := b; _sleeping := _sleeping s |}.

(** The address goes to [sht4x_init] as a plain Python [int]; the value
    [sht4x_init] returns is not looked at. *)
Definition initialize : M t unit :=
  s <- get ;;
  if fits_c_long (i2c_address s) then
    _ <- call (sht4x_init (c_int (i2c_address s))) ;;
    modify (set_initialized true)
  else raise ArgumentError.

(** The [temperature] and [humidity] parameters exist for API
    compatibility only and are ignored. *)
Definition read (temperature humidity : option float) (mode : string)
    : M t (gmap string float) :=
  s <- get ;;
  if negb (_initialized s) then
    raise (SensorError ReadError "SHTC3" "Sensor not initialized" (Some (-1))
             [("operation", DStr "read")])
  else
    r <- (if String.eqb mode "high" then call sht4x_measure_high_precision
          else if String.eqb mode "medium" then call sht4x_measure_medium_precision
          else if String.eqb mode "lowest" then call sht4x_measure_lowest_precision
          else raise (ValueError "Invalid mode. Choose 'high', 'medium', or 'lowest'.")) ;;
    if negb (status r =? 0) then
      raise (SensorError ReadError "SHTC3"
               ("Failed to read temperature/humidity in " ++ mode ++ " precision mode")
               (Some (status r))
               [("operation", DStr ("sht4x_measure_" ++ mode ++ "_precision"))])
    else
      let '(temp_val, hum_val) := out_floats r in
      ret (<["temperature" := temp_val]> (<["relative_humidity" := hum_val]> ∅)).

Definition get_info : M t (gmap string info_value) :=
  s <- get ;;
  if negb (_initialized s) then
    raise (SensorError ReadError "SHTC3" "Sensor not initialized" (Some (-1))
             [("operation", DStr "get_info")])
  else
    error <- call sht4x_serial_number ;;
    if negb (status error =? 0) then
      raise (SensorError ReadError "SHTC3" "Failed to retrieve serial number"
               (Some (status error)) [("operation", DStr "sht4x_serial_number")])
    else ret (<["serial_number" := IInt (out_word error mod 2 ^ 32)]> ∅).

Definition soft_reset : M t unit :=
  s <- get ;;
  if negb (_initialized s) then
    raise (SensorError ReadError "SHTC3" "Sensor not initialized" (Some (-1))
             [("operation", DStr "soft_reset")])
  else
    r <- call sht4x_soft_reset ;;
    if negb (status r =? 0) then
      raise (SensorError ReadError "SHTC3" "Soft reset failed" (Some (status r))
               [("operation", DStr "sht4x_soft_reset")])
    else time_sleep 50.

(** The bodies of [sleep] and [wake_up] are [pass]. *)
Definition sleep : M t unit := ret tt.

Definition wake_up : M t unit := ret tt.

(** The public operations, as a caller can invoke them. *)
Inductive method : Type :=
| Initialize
| Read (temperature humidity : option float) (mode : string)
| GetInfo
| SoftReset
| Sleep
| WakeUp.

Definition discard {A} (m : M t A) : M t unit := _ <- m ;; ret tt.

Definition dispatch (op : method) : M t unit :=
  match op with
  | Initialize => initialize
  | Read temperature humidity mode => discard (read temperature humidity mode)
  | GetInfo => discard get_info
  | SoftReset => soft_reset
  | Sleep => sleep
  | WakeUp => wake_up
  end.

End SHTC3Sensor.

(** ** [SPS30Sensor] ([sps30_sensor.py]) *)

Module SPS30Sensor.

Definition SPS30_MAX_SERIAL_LEN : nat := 32.

Record t : Type := {
  version_info : option SPS30_VersionInfo;
  serial_number : string;
  _initialized : bool;
  _uart_open : bool;
  _measurement_started : bool;
  _sleeping : bool
}.

Definition __init__ : t :=
  {| version_info := None; serial_number := "Unknown"; _initialized := false;
     _uart_open := false; _measurement_started := false; _sleeping := false |}.

Definition set_version_info (v : option SPS30_VersionInfo) (s : t) : t :=
  {| version_info := v; serial_number := serial_number s;
     _initialized := _initialized s; _uart_open := _uart_open s;
     _measurement_started := _measurement_started s; _sleeping := _sleeping s |}.
Definition set_serial_number (n : string) (s : t) : t :=
  {| version_info := version_info s; serial_number := n;
     _initialized := _initialized s; _uart_open := _uart_open s;
     _measurement_started := _measurement_started s; _sleeping := _sleeping s |}.
Definition set_initialized (b : bool) (s : t) : t :=
  {| version_info := version_info s; serial_number := serial_number s;
     _initialized := b; _uart_open := _uart_open s;
     _measurement_started := _measurement_started s; _sleeping := _sleeping s |}.
Definition set_uart_open (b : bool) (s : t) : t :=
  {| version_info := version_info s; serial_number := serial_number s;
     _initialized := _initialized s; _uart_open := b;
     _measurement_started := _measurement_started s; _sleeping := _sleeping s |}.
Definition set_measurement_started (b : bool) (s : t) : t :=
  {| version_info := version_info s; serial_number := serial_number s;
     _initialized := _initialized s; _uart_open := _uart_open s;
     _measurement_started := b; _sleeping := _sleeping s |}.
Definition set_sleeping (b : bool) (s : t) : t :=
  {| version_info := version_info s; serial_number := serial_number s;
     _initialized := _initialized s; _uart_open := _uart_open s;
     _measurement_started := _measurement_started s; _sleeping := b |}.

Definition initialize (auto_clean_days : Z) : M t unit :=
  (* 1) Open UART *)
  r <- call sensirion_uart_open ;;
  if negb (status r =? 0) then
    raise (SensorError InitializationError "SPS30" "Failed to initialize UART"
             (Some (status r)) [("operation", DStr "sensirion_uart_open")])
  else
    modify (set_uart_open true) ;;
    (* 2) Probe the sensor *)
    r <- call sps30_probe ;;
    if negb (status r =? 0) then
      raise (SensorError InitializationError "SPS30" "Failed to probe SPS30 sensor"
               (Some (status r)) [("operation", DStr "sps30_probe")])
    else
      (* 3) Read version info *)
      r <- call sps30_read_version ;;
      (if status r =? 0 then modify (set_version_info (Some (out_version r)))
       else raise (SensorError ReadError "SPS30" "Failed to retrieve version info"
                     (Some (status r)) [("operation", DStr "sps30_read_version")])) ;;
      (* 4) Read the serial number *)
      r <- call sps30_get_serial ;;
      (if status r =? 0 then
         match decode (c_char_array_value SPS30_MAX_SERIAL_LEN (out_chars r)) with
         | Some serial => modify (set_serial_number serial)
         | None => raise UnicodeDecodeError
         end
       else raise (SensorError ReadError "SPS30" "Failed to retrieve serial number"
                     (Some (status r)) [("operation", DStr "sps30_get_serial")])) ;;
      (* 5) Set the auto-cleaning interval in days *)
      r <- call (sps30_set_fan_auto_cleaning_interval_days (auto_clean_days mod 2 ^ 8)) ;;
      if negb (status r =? 0) then
        raise (SensorError ReadError "SPS30"
                 ("Could not set auto-clean interval to " ++ format_d auto_clean_days
                  ++ " day(s)")
                 (Some (status r))
                 [("operation", DStr "sps30_set_fan_auto_cleaning_interval_days")])
      else
        (* 6) Start measurement *)
        r <- call sps30_start_measurement ;;
        if negb (status r =? 0) then
          raise (SensorError InitializationError "SPS30" "Failed to start measurements"
                   (Some (status r)) [("operation", DStr "sps30_start_measurement")])
        else
          modify (set_measurement_started true) ;;
          (* 7) Wait ~1.1s *)
          time_sleep 1100 ;;
          modify (set_initialized true) ;;
          modify (set_sleeping false).

Definition stop_measurement : M t unit :=
  s <- get ;;
  if negb (_measurement_started s) then
    raise (SensorError ReadError "SPS30"
             "Cannot stop measurement: measurement not started" (Some (-1))
             [("operation", DStr "sps30_stop_measurement")])
  else
    r <- call sps30_stop_measurement ;;
    if negb (status r =? 0) then
      raise (SensorError ReadError "SPS30" "Stopping measurement failed"
               (Some (status r)) [("operation", DStr "sps30_stop_measurement")])
    else modify (set_measurement_started false).

Definition measurement_dict (measurement : SPS30_Measurement) : gmap string float :=
  <["pm1.0" := mc_1p0 measurement]>
  (<["pm2.5" := mc_2p5 measurement]>
  (<["pm4.0" := mc_4p0 measurement]>
  (<["pm10.0" := mc_10p0 measurement]>
  (<["nc0.5" := nc_0p5 measurement]>
  (<["nc1.0" := nc_1p0 measurement]>
  (<["nc2.5" := nc_2p5 measurement]>
  (<["nc4.0" := nc_4p0 measurement]>
  (<["nc10.0" := nc_10p0 measurement]>
  (<["typical_particle_size" := typical_particle_size measurement]> ∅))))))))).

Definition read (temperature humidity : option float) : M t (gmap string float) :=
  s <- get ;;
  if negb (_initialized s) || negb (_measurement_started s) then
    raise (SensorError ReadError "SPS30"
             "Cannot read data: sensor not properly initialized or measurement not started"
             (Some (-1)) [("operation", DStr "read")])
  else
    r <- call sps30_read_measurement ;;
    if status r <? 0 then
      if status r =? -1 then
        raise (SensorError ReadError "SPS30"
                 "Not enough data available (the sensor needs more time)."
                 (Some (status r)) [("operation", DStr "sps30_read_measurement")])
      else
        raise (SensorError ReadError "SPS30" "Failed to read particulate matter data"
                 (Some (status r)) [("operation", DStr "sps30_read_measurement")])
    else ret (measurement_dict (out_measurement r)).

(** [version_info is None or version_info.firmware_major < 2]. *)
Definition sleep_unsupported (s : t) : bool :=
  match version_info s with
  | None => true
  | Some v => firmware_major v <? 2
  end.

Definition sleep : M t unit :=
  s <- get ;;
  if sleep_unsupported s then ret tt
  else if negb (_initialized s) then
    raise (SensorError ReadError "SPS30" "Sensor not initialized" (Some (-1))
             [("operation", DStr "sleep")])
  else if _measurement_started s then
    raise (SensorError ReadError "SPS30" "Stop measurement before sleeping" (Some (-1))
             [("operation", DStr "sleep")])
  else
    r <- call sps30_sleep ;;
    if negb (status r =? 0) then
      raise (SensorError ReadError "SPS30" "Entering sleep failed" (Some (status r))
               [("operation", DStr "sps30_sleep")])
    else modify (set_sleeping true).

Definition wake_up : M t unit :=
  s <- get ;;
  if sleep_unsupported s then ret tt
  else if negb (_initialized s) then
    raise (SensorError ReadError "SPS30" "Sensor not initialized" (Some (-1))
             [("operation", DStr "wake_up")])
  else if negb (_sleeping s) then
    raise (SensorError ReadError "SPS30" "Sensor is not sleeping" (Some (-1))
             [("operation", DStr "wake_up")])
  else
    r <- call sps30_wake_up ;;
    if negb (status r =? 0) then
      raise (SensorError ReadError "SPS30" "Waking up from sleep failed"
               (Some (status r)) [("operation", DStr "sps30_wake_up")])
    else modify (set_sleeping false).

Definition start_manual_fan_cleaning : M t unit :=
  s <- get ;;
  if negb (_measurement_started s) then
    raise (SensorError ReadError "SPS30"
             "Cannot perform manual fan cleaning: measurement not started" (Some (-1))
             [("operation", DStr "sps30_start_manual_fan_cleaning")])
  else
    r <- call sps30_start_manual_fan_cleaning ;;
    if negb (status r =? 0) then
      raise (SensorError ReadError "SPS30" "Manual fan cleaning failed"
               (Some (status r)) [("operation", DStr "sps30_start_manual_fan_cleaning")])
    else ret tt.

Definition set_fan_auto_cleaning_interval_days (days : Z) : M t unit :=
  r <- call (sps30_set_fan_auto_cleaning_interval_days (days mod 2 ^ 8)) ;;
  if negb (status r =? 0) then
    raise (SensorError ReadError "SPS30"
             ("Failed to set auto-cleaning interval to " ++ format_d days ++ " day(s)")
             (Some (status r))
             [("operation", DStr "sps30_set_fan_auto_cleaning_interval_days")])
  else ret tt.

Definition get_fan_auto_cleaning_interval_days : M t Z :=
  r <- call sps30_get_fan_auto_cleaning_interval_days ;;
  if negb (status r =? 0) then
    raise (SensorError ReadError "SPS30" "Failed to get auto-cleaning interval (days)"
             (Some (status r))
             [("operation", DStr "sps30_get_fan_auto_cleaning_interval_days")])
  else ret (out_word r mod 2 ^ 8).

Definition reset : M t unit :=
  r <- call sps30_reset ;;
  if negb (status r =? 0) then
    raise (SensorError ReadError "SPS30" "Failed to reset sensor" (Some (status r))
             [("operation", DStr "sps30_reset")])
  else ret tt.

Definition close : M t unit :=
  r <- call sensirion_uart_close ;;
  if negb (status r =? 0) then
    raise (SensorError ReadError "SPS30" "Failed to close UART" (Some (status r))
             [("operation", DStr "sensirion_uart_close")])
  else modify (set_uart_open false).

Definition get_info : M t (gmap string info_value) :=
  s <- get ;;
  let info :=
    match version_info s with
    | Some v =>
        <["shdlc_version" := IStr (format_d (shdlc_major v) ++ "." ++ format_d (shdlc_minor v))]>
        (<["hardware_revision" := IInt (hardware_revision v)]>
        (<["firmware_version" :=
             IStr (format_d (firmware_major v) ++ "." ++ format_d (firmware_minor v))]> ∅))
    | None =>
        <["shdlc_version" := IStr "Unknown"]>
        (<["hardware_revision" := IInt (-1)]>
        (<["firmware_version" := IStr "Unknown"]> ∅))
    end in
  ret (<["serial_number" := IStr (serial_number s)]> info).

(** The public operations, as a caller can invoke them one after another.
    [invoke] runs one and keeps only the machine and the trace; an
    exception ends that operation, not the sequence. *)
Inductive method : Type :=
| Initialize (auto_clean_days : Z)
| StopMeasurement
| Read (temperature humidity : option float)
| Sleep
| WakeUp
| StartManualFanCleaning
| SetFanAutoCleaningIntervalDays (days : Z)
| GetFanAutoCleaningIntervalDays
| Reset
| Close
| GetInfo.

Definition discard {A} (m : M t A) : M t unit := _ <- m ;; ret tt.

Definition dispatch (op : method) : M t unit :=
  match op with
  | Initialize d => initialize d
  | StopMeasurement => stop_measurement
  | Read temperature humidity => discard (read temperature humidity)
  | Sleep => sleep
  | WakeUp => wake_up
  | StartManualFanCleaning => start_manual_fan_cleaning
  | SetFanAutoCleaningIntervalDays d => set_fan_auto_cleaning_interval_days d
  | GetFanAutoCleaningIntervalDays => discard get_fan_auto_cleaning_interval_days
  | Reset => reset
  | Close => close
  | GetInfo => discard get_info
  end.

Definition invoke (op : method) (sw : t * world) : t * world :=
  let '(_, s, w) := dispatch op (fst sw) (snd sw) in (s, w).

Definition run (ops : list method) (sw : t * world) : t * world :=
  fold_left (fun acc op => invoke op acc) ops sw.

(** The state invariant: an initialised machine has its version record. *)
Definition version_cached (s : t) : bool :=
  implb (_initialized s) (match version_info s with Some _ => true | None => false end).

(** Is the operation [initialize]? *)
Definition is_initialize (op : method) : bool :=
  match op with Initialize _ => true | _ => false end.

End SPS30Sensor.

(** ** [SensorManager] ([sensor_manager.py]) *)

Module SensorManager.

Record t : Type := {
  enable_stc31c : bool;
  enable_shtc3 : bool;
  enable_sps30 : bool;
  stc31c : option STC31CSensor.t;
  shtc3 : option SHTC3Sensor.t;
  sps30 : option SPS30Sensor.t
}.

Definition set_stc31c (v : option STC31CSensor.t) (self : t) : t :=
  {| enable_stc31c := enable_stc31c self; enable_shtc3 := enable_shtc3 self;
     enable_sps30 := enable_sps30 self;
     stc31c := v; shtc3 := shtc3 self; sps30 := sps30 self |}.
Definition set_shtc3 (v : option SHTC3Sensor.t) (self : t) : t :=
  {| enable_stc31c := enable_stc31c self; enable_shtc3 := enable_shtc3 self;
     enable_sps30 := enable_sps30 self;
     stc31c := stc31c self; shtc3 := v; sps30 := sps30 self |}.
Definition set_sps30 (v : option SPS30Sensor.t) (self : t) : t :=
  {| enable_stc31c := enable_stc31c self; enable_shtc3 := enable_shtc3 self;
     enable_sps30 := enable_sps30 self;
     stc31c := stc31c self; shtc3 := shtc3 self; sps30 := v |}.

Definition is_not_None {A} (o : option A) : bool :=
  match o with Some _ => true | None => false end.

(** [self.stc31c.m(...)]: the method runs on the owned object, whose
    attribute writes the manager sees; on [None] the attribute access
    fails. *)
Definition on_stc31c {A} (m : M STC31CSensor.t A) : M t A :=
  fun self w =>
    match stc31c self with
    | Some s => let '(r, s', w') := m s w in (r, set_stc31c (Some s') self, w')
    | None => (Raise AttributeError, self, w)
    end.

Definition on_shtc3 {A} (m : M SHTC3Sensor.t A) : M t A :=
  fun self w =>
    match shtc3 self with
    | Some s => let '(r, s', w') := m s w in (r, set_shtc3 (Some s') self, w')
    | None => (Raise AttributeError, self, w)
    end.

Definition on_sps30 {A} (m : M SPS30Sensor.t A) : M t A :=
  fun self w =>
    match sps30 self with
    | Some s => let '(r, s', w') := m s w in (r, set_sps30 (Some s') self, w')
    | None => (Raise AttributeError, self, w)
    end.

(** [if cond: body]. *)
Definition when (cond : bool) (body : M t unit) : M t unit :=
  if cond then body else ret tt.

Definition shutdown : M t unit :=
  logger INFO "Shutting down all enabled sensors" None ;;
  self <- get ;;
  when (enable_sps30 self && is_not_None (sps30 self))
    (try_except
       (s <- on_sps30 get ;;
        when (SPS30Sensor._measurement_started s)
          (logger DEBUG "Stopping SPS30 measurement" None ;;
           on_sps30 SPS30Sensor.stop_measurement))
       (fun _ => true)
       (fun e => logger WARNING "Failed to stop SPS30 measurement: %s" (Some e)) ;;
     try_except
       (logger DEBUG "Closing SPS30 connection" None ;;
        on_sps30 SPS30Sensor.close)
       (fun _ => true)
       (fun e => logger WARNING "Failed to close SPS30 connection: %s" (Some e))) ;;
  logger INFO "Sensor shutdown complete" None.

(** The body of the [try] block of [__init__]. *)
Definition initialize_enabled : M t unit :=
  self <- get ;;
  when (enable_stc31c self)
    (assert_ (is_not_None (stc31c self)) ;; on_stc31c STC31CSensor.initialize) ;;
  when (enable_shtc3 self)
    (assert_ (is_not_None (shtc3 self)) ;; on_shtc3 SHTC3Sensor.initialize) ;;
  when (enable_sps30 self)
    (assert_ (is_not_None (sps30 self)) ;; on_sps30 (SPS30Sensor.initialize 4)).

(** [except (InitializationError, ReadError)]. *)
Definition init_handles (e : exn) : bool :=
  is_InitializationError e || is_ReadError e.

Definition override_message : string :=
  "STC31C sensor requires SHTC3 data. Enabling SHTC3 sensor automatically.".

(** The constructor, up to the [try] block: the dependency of the CO2
    sensor on the temperature/humidity sensor overrides the caller's
    choice, with a log record; then the flags and the sensor objects are
    stored.  The library path only locates the shared library, which here
    is the [driver] of the world. *)
Definition overridden (enable_stc31c enable_shtc3 : bool) : bool :=
  enable_stc31c && negb enable_shtc3.

Definition announce (enable_stc31c enable_shtc3 : bool) (w : world) : world :=
  if overridden enable_stc31c enable_shtc3
  then emit (Log ERROR override_message None) w else w.

Definition attributes (co2_self_calibration enable_stc31c enable_shtc3 enable_sps30 : bool)
    : t :=
  let enable_shtc3 :=
    if overridden enable_stc31c enable_shtc3 then true else enable_shtc3 in
  {| enable_stc31c := enable_stc31c;
     enable_shtc3 := enable_shtc3;
     enable_sps30 := enable_sps30;
     stc31c := if enable_stc31c then Some (STC31CSensor.__init__ co2_self_calibration)
               else None;
     shtc3 := if enable_shtc3
              then Some (SHTC3Sensor.__init__ SHTC3Sensor.default_i2c_address)
              else None;
     sps30 := if enable_sps30 then Some SPS30Sensor.__init__ else None |}.

(** [__init__]: the result is the outcome of the call together with the
    attributes [self] has when it ends. *)
Definition __init__ (co2_self_calibration enable_stc31c enable_shtc3 enable_sps30 : bool)
    (w : world) : outcome unit * t * world :=
  try_except initialize_enabled init_handles (fun e => shutdown ;; raise e)
    (attributes co2_self_calibration enable_stc31c enable_shtc3 enable_sps30)
    (announce enable_stc31c enable_shtc3 w).


Definition get_all_info : M t (gmap string (gmap string info_value)) :=
  self <- get ;;
  let result : gmap string (gmap string info_value) := ∅ in
  result <- (if enable_stc31c self then
               assert_ (is_not_None (stc31c self)) ;;
               info <- on_stc31c STC31CSensor.get_info ;;
               ret (<["stc31c" := info]> result)
             else ret result) ;;
  result <- (if enable_shtc3 self then
               assert_ (is_not_None (shtc3 self)) ;;
               info <- on_shtc3 SHTC3Sensor.get_info ;;
               ret (<["shtc3" := info]> result)
             else ret result) ;;
  result <- (if enable_sps30 self then
               assert_ (is_not_None (sps30 self)) ;;
               info <- on_sps30 SPS30Sensor.get_info ;;
               ret (<["sps30" := info]> result)
             else ret result) ;;
  ret result.

(** Truth value of an optional dictionary: [None] and the empty
    dictionary are false. *)
Definition truthy (d : option (gmap string float)) : bool :=
  match d with
  | Some d => negb (Nat.eqb (size d) 0)
  | None => false
  end.

(** [d[key]]. *)
Definition getitem (d : gmap string float) (key : string) : M t float :=
  match d !! key with
  | Some v => ret v
  | None => raise (KeyError key)
  end.

Definition read_all : M t (gmap string (gmap string float)) :=
  self <- get ;;
  let result : gmap string (gmap string float) := ∅ in
  (* Read SHTC3 first if enabled *)
  p <- (if enable_shtc3 self then
          assert_ (is_not_None (shtc3 self)) ;;
          shtc3_data <- on_shtc3 (SHTC3Sensor.read None None "high") ;;
          ret (Some shtc3_data, <["shtc3" := shtc3_data]> result)
        else ret (None, result)) ;;
  let '(shtc3_data, result) := p in
  (* Read STC31C if enabled (requires SHTC3 data) *)
  result <- (if enable_stc31c self then
               assert_ (is_not_None (stc31c self)) ;;
               if truthy shtc3_data then
                 let d := default ∅ shtc3_data in
                 temperature <- getitem d "temperature" ;;
                 humidity <- getitem d "relative_humidity" ;;
                 stc31c_data <- on_stc31c (STC31CSensor.read (Some temperature)
                                             (Some humidity)) ;;
                 ret (<["stc31c" := stc31c_data]> result)
               else
                 logger ERROR
                   "Cannot read STC31C without SHTC3 data. Skipping STC31C reading."
                   None ;;
                 ret result
             else ret result) ;;
  (* Read SPS30 if enabled *)
  result <- (if enable_sps30 self then
               assert_ (is_not_None (sps30 self)) ;;
               sps30_data <- on_sps30 (SPS30Sensor.read None None) ;;
               ret (<["sps30" := sps30_data]> result)
             else ret result) ;;
  ret result.

(** The two [except] clauses of the bulk operations:
    [except NotImplementedError] first, then [except Exception as e]. *)
Definition bulk_handler (unsupported failed : string) (e : exn) : M t unit :=
  if is_NotImplementedError e then logger DEBUG unsupported None
  else logger WARNING failed (Some e).

Definition sleep_all : M t unit :=
  self <- get ;;
  when (enable_stc31c self && is_not_None (stc31c self))
    (try_except (on_stc31c STC31CSensor.sleep) (fun _ => true)
       (bulk_handler "STC31C sensor does not support sleep mode"
          "Failed to put STC31C to sleep: %s")) ;;
  when (enable_shtc3 self && is_not_None (shtc3 self))
    (try_except (on_shtc3 SHTC3Sensor.sleep) (fun _ => true)
       (bulk_handler "SHTC3 sensor does not support sleep mode"
          "Failed to put SHTC3 to sleep: %s")) ;;
  when (enable_sps30 self && is_not_None (sps30 self))
    (try_except
       (s <- on_sps30 get ;;
        when (SPS30Sensor._measurement_started s)
          (on_sps30 SPS30Sensor.stop_measurement) ;;
        on_sps30 SPS30Sensor.sleep)
       (fun _ => true)
       (bulk_handler "SPS30 sensor does not support sleep mode"
          "Failed to put SPS30 to sleep: %s")).

Definition wake_up_all : M t unit :=
  self <- get ;;
  when (enable_stc31c self && is_not_None (stc31c self))
    (try_except (on_stc31c STC31CSensor.wake_up) (fun _ => true)
       (bulk_handler "STC31C sensor does not support wake-up"
          "Failed to wake up STC31C: %s")) ;;
  when (enable_shtc3 self && is_not_None (shtc3 self))
    (try_except (on_shtc3 SHTC3Sensor.wake_up) (fun _ => true)
       (bulk_handler "SHTC3 sensor does not support wake-up"
          "Failed to wake up SHTC3: %s")) ;;
  when (enable_sps30 self && is_not_None (sps30 self))
    (try_except (on_sps30 SPS30Sensor.wake_up) (fun _ => true)
       (bulk_handler "SPS30 sensor does not support wake-up"
          "Failed to wake up SPS30: %s")).

End SensorManager.

(** ** Fixtures: concrete drivers and worlds *)

Definition ok (o : output) : resp := {| status := 0; out := o |}.

(** A library whose every call succeeds and writes nothing. *)
Definition quiet_driver : list event -> cmd -> resp :=
  fun _ _ => ok OutNothing.

Definition sample_measurement : SPS30_Measurement :=
  {| mc_1p0 := 10; mc_2p5 := 25; mc_4p0 := 40; mc_10p0 := 100;
     nc_0p5 := 5; nc_1p0 := 10; nc_2p5 := 25; nc_4p0 := 40; nc_10p0 := 100;
     typical_particle_size := 2.5 |}%float.

(** A test bench with the three devices attached: the particulate sensor
    reports firmware [fw_major].0 and answers a read with [pm_status]; the
    CO2 sensor answers its measurement command with [co2_status]. *)
Definition bench (fw_major pm_status co2_status : Z) : list event -> cmd -> resp :=
  fun _ c =>
    match c with
    | sps30_read_version =>
        ok (OutVersion {| firmware_major := fw_major; firmware_minor := 0;
                          hardware_revision := 7; shdlc_major := 2; shdlc_minor := 0 |})
    | sps30_get_serial => ok (OutChars "0123456789ABCDEF")
    | sps30_read_measurement =>
        {| status := pm_status; out := OutMeasurement sample_measurement |}
    | sht4x_measure_high_precision => ok (OutFloats 25 50)
    | stc3x_measure_gas_concentration =>
        {| status := co2_status; out := OutFloats 0.125 25 |}
    | stc3x_get_product_id => ok (OutProduct 0x08010301 0xBEEF)
    | _ => ok OutNothing
    end.

(** The same bench with a particulate sensor that does not answer the
    probe. *)
Definition bench_probe_fault : list event -> cmd -> resp :=
  fun tr c =>
    match c with
    | sps30_probe => {| status := -2; out := OutNothing |}
    | _ => bench 2 0 0 tr c
    end.

(** The same bench with a particulate sensor whose serial number is not
    UTF-8: the request answers 0 and writes the bytes 53 FF 30. *)
Definition bench_serial_fault : list event -> cmd -> resp :=
  fun tr c =>
    match c with
    | sps30_get_serial =>
        ok (OutChars (String "S" (String (ascii_of_nat 255) (String "0" EmptyString))))
    | _ => bench 2 0 0 tr c
    end.

(** A bench whose particulate sensor has firmware 1.0 and refuses to
    start measuring: [initialize] caches the version record and fails. *)
Definition bench_old_start_fault : list event -> cmd -> resp :=
  fun tr c =>
    match c with
    | sps30_start_measurement => {| status := -4; out := OutNothing |}
    | _ => bench 1 0 0 tr c
    end.

(** The same bench with a CO2 sensor that fails to report its product
    identifier and refuses to enter sleep mode. *)
Definition bench_co2_fault : list event -> cmd -> resp :=
  fun tr c =>
    match c with
    | stc3x_get_product_id => {| status := -7; out := OutNothing |}
    | stc3x_enter_sleep_mode => {| status := -8; out := OutNothing |}
    | _ => bench 2 0 0 tr c
    end.


Definition fresh_world (d : list event -> cmd -> resp) : world :=
  {| driver := d; trace := [] |}.

Definition outcome_of {A S} (r : outcome A * S * world) : outcome A := fst (fst r).
Definition state_of {A S} (r : outcome A * S * world) : S := snd (fst r).
Definition world_of {A S} (r : outcome A * S * world) : world := snd r.

(** A particulate machine brought up on the bench. *)
Definition sps30_on_bench (fw_major pm_status : Z) : SPS30Sensor.t * world :=
  let r := SPS30Sensor.initialize 4 SPS30Sensor.__init__
             (fresh_world (bench fw_major pm_status 0)) in
  (state_of r, world_of r).

(** The manager with the three sensors brought up on the bench. *)
Definition manager_on_bench (fw_major pm_status co2_status : Z)
    : SensorManager.t * world :=
  let r := SensorManager.__init__ false true true true
             (fresh_world (bench fw_major pm_status co2_status)) in
  (state_of r, world_of r).

(** What [read_all] returns on that bench when every read succeeds. *)
Definition bench_reading : gmap string (gmap string float) :=
  match outcome_of (SensorManager.read_all (fst (manager_on_bench 2 0 0))
                      (snd (manager_on_bench 2 0 0))) with
  | Return d => d
  | Raise _ => ∅
  end.

(** ** Vocabulary of the specification *)

(** The flags of a manager agree with the objects it holds. *)
Definition consistent (self : SensorManager.t) : Prop :=
  (SensorManager.enable_stc31c self = true ->
     SensorManager.is_not_None (SensorManager.stc31c self) = true)
  /\ (SensorManager.enable_shtc3 self = true ->
        SensorManager.is_not_None (SensorManager.shtc3 self) = true)
  /\ (SensorManager.enable_sps30 self = true ->
        SensorManager.is_not_None (SensorManager.sps30 self) = true).


(** A guarded transition, once the firmware check is passed: unless
    [guard] holds the call is refused with a [ReadError], with no bus
    traffic and no change; otherwise command [c] is issued, and the machine
    takes [effect] exactly when the command answers 0. *)
Definition guarded_transition {S} (guard : bool) (c : cmd) (effect : S -> S)
    (s : S) (w : world) (result : outcome unit * S * world) : Prop :=
  if guard then
    let r := driver w (trace w) c in
    if status r =? 0 then result = (Return tt, effect s, emit (Bus c r) w)
    else exists e, result = (Raise e, s, emit (Bus c r) w)
                   /\ is_ReadError e = true /\ exn_code e = Some (status r)
  else exists e, result = (Raise e, s, w) /\ is_ReadError e = true.

(** The trace only grows. *)
Definition grows (w w' : world) : Prop :=
  exists later, trace w' = (later ++ trace w)%list.

(** A method relates the state it ends in to the state it started from by
    [R], and only adds events to the trace. *)
Definition frame {S A} (R : S -> S -> Prop) (m : M S A) : Prop :=
  forall s w, R s (state_of (m s w)) /\ grows w (world_of (m s w)).

(** What no method of the manager changes: the three flags, and which of
    the three sensor objects exist. *)
Definition same_shape (self self' : SensorManager.t) : Prop :=
  SensorManager.enable_stc31c self' = SensorManager.enable_stc31c self
  /\ SensorManager.enable_shtc3 self' = SensorManager.enable_shtc3 self
  /\ SensorManager.enable_sps30 self' = SensorManager.enable_sps30 self
  /\ SensorManager.is_not_None (SensorManager.stc31c self')
     = SensorManager.is_not_None (SensorManager.stc31c self)
  /\ SensorManager.is_not_None (SensorManager.shtc3 self')
     = SensorManager.is_not_None (SensorManager.shtc3 self)
  /\ SensorManager.is_not_None (SensorManager.sps30 self')
     = SensorManager.is_not_None (SensorManager.sps30 self).

(** Any change at all. *)
Definition any_change {S} (s s' : S) : Prop := True.

(** The error of a call made too early: a [ReadError] with code -1. *)
Definition is_uninitialized_error (e : exn) : bool :=
  is_ReadError e && bool_decide (exn_code e = Some (-1)).

Definition measurement_keys : list string :=
  ["pm1.0"; "pm2.5"; "pm4.0"; "pm10.0";
   "nc0.5"; "nc1.0"; "nc2.5"; "nc4.0"; "nc10.0"; "typical_particle_size"].

(** A method that cannot raise. *)
Definition returns {S A} (m : M S A) : Prop :=
  forall s w, exists a, outcome_of (m s w) = Return a.

(** What an exception of a sensor tells about the bus.  A sensor error
    names its sensor and the operation, and its code is -1 when the call
    was refused before any command (the trace is as it was), and otherwise
    the nonzero status of the command issued last.  A [ValueError] and an
    [ArgumentError] are raised before any command; a [UnicodeDecodeError]
    right after the serial number request answered 0. *)
Definition reports_bus (name : string) (w w' : world) (e : exn) : Prop :=
  match e with
  | SensorError _ sensor_name _ error_code details =>
      sensor_name = name
      /\ (exists op, In ("operation", DStr op) details)
      /\ ((w' = w /\ error_code = Some (-1))
          \/ exists c r rest, trace w' = Bus c r :: rest
                              /\ error_code = Some (status r) /\ status r <> 0)
  | ValueError _ => w' = w
  | ArgumentError => w' = w
  | UnicodeDecodeError =>
      exists r rest, trace w' = Bus sps30_get_serial r :: rest /\ status r = 0
  | _ => False
  end.

(** The library answers 0 to every command, whatever happened before. *)
Definition always_ok (w : world) : Prop :=
  forall (tr : list event) (c : cmd), status (driver w tr c) = 0.

(** One sensor's turn in a bulk operation, seen from outside: if the
    sensor is enabled and its object exists, the method [m] runs on it in
    the world reached so far, its writes to the object are kept whether it
    returns or raises, and what it raises becomes a log record (at level
    DEBUG for [NotImplementedError], otherwise at level WARNING with the
    exception); if not, nothing happens.  The result is the object and the
    world the next sensor starts from. *)
Definition attempt {S} (enabled : bool) (o : option S) (m : M S unit)
    (unsupported failed : string) (w : world) : option S * world :=
  match enabled, o with
  | true, Some s =>
      let '(r, s', w') := m s w in
      (Some s',
       match r with
       | Return _ => w'
       | Raise e =>
           if is_NotImplementedError e then emit (Log DEBUG unsupported None) w'
           else emit (Log WARNING failed (Some e)) w'
       end)
  | _, _ => (o, w)
  end.

(** What [sleep_all] asks of the particulate machine: stop the measurement
    if it is running, then sleep. *)
Definition stop_then_sleep : M SPS30Sensor.t unit :=
  s <- get ;;
  (if SPS30Sensor._measurement_started s then SPS30Sensor.stop_measurement
   else ret tt) ;;
  SPS30Sensor.sleep.

(** The world in which [get_all_info] reaches the temperature/humidity
    sensor: the one the CO2 sensor's [get_info] left if that sensor is
    enabled and its [get_info] returned, the initial one if it is disabled;
    there is none if the CO2 sensor's [get_info] raised. *)
Definition after_co2_info (self : SensorManager.t) (w : world) : option world :=
  match SensorManager.enable_stc31c self, SensorManager.stc31c self with
  | true, Some st =>
      match STC31CSensor.get_info st w with
      | (Return _, _, w') => Some w'
      | (Raise _, _, _) => None
      end
  | true, None => None
  | false, _ => Some w
  end.

(** A particulate machine measures only if it is initialised. *)
Definition measuring_is_initialized (s : SPS30Sensor.t) : bool :=
  implb (SPS30Sensor._measurement_started s) (SPS30Sensor._initialized s).

(** Did the call return? *)
Definition is_not_raise {A} (o : outcome A) : bool :=
  match o with Return _ => true | Raise _ => false end.

(** * Properties *)

(** ** Running a method by hand *)

Ltac unfold_monad :=
  unfold bind, ret, raise, get, modify, call, time_sleep, logger, try_except,
    assert_ in *.

Ltac branch :=
  match goal with
  | |- context [decode ?b] => destruct (decode b) eqn:?
  | |- context [fits_c_long ?n] => destruct (fits_c_long n) eqn:?
  | |- context [if ?b then _ else _] => destruct b eqn:?
  | |- context [match ?x with Some _ => _ | None => _ end] => destruct x eqn:?
  end.

Ltac exec := unfold_monad; cbn; repeat (branch; cbn).

(** ** The particulate machine *)

Lemma sps30_unsupported_of_version :
  forall (s : SPS30Sensor.t) (v : SPS30_VersionInfo),
    SPS30Sensor.version_info s = Some v ->
    SPS30Sensor.sleep_unsupported s = (firmware_major v <? 2).
Proof.
  intros s v Hv. unfold SPS30Sensor.sleep_unsupported. now rewrite Hv.
Qed.

Lemma sps30_sleep_wake_unsupported :
  forall (s : SPS30Sensor.t) (w : world),
    SPS30Sensor.sleep_unsupported s = true ->
    SPS30Sensor.sleep s w = (Return tt, s, w) /\
    SPS30Sensor.wake_up s w = (Return tt, s, w).
Proof.
  intros s w Hfw. unfold SPS30Sensor.sleep, SPS30Sensor.wake_up.
  unfold_monad. now rewrite Hfw.
Qed.

Lemma sps30_sleep_supported :
  forall (s : SPS30Sensor.t) (w : world),
    SPS30Sensor.sleep_unsupported s = false ->
    guarded_transition
      (SPS30Sensor._initialized s && negb (SPS30Sensor._measurement_started s))
      sps30_sleep (SPS30Sensor.set_sleeping true) s w (SPS30Sensor.sleep s w).
Proof.
  intros s w Hfw. unfold SPS30Sensor.sleep, guarded_transition. unfold_monad.
  rewrite Hfw.
  destruct (SPS30Sensor._initialized s), (SPS30Sensor._measurement_started s);
    cbn; eauto.
  destruct (status (driver w (trace w) sps30_sleep) =? 0); cbn; eauto.
Qed.

Lemma sps30_wake_up_supported :
  forall (s : SPS30Sensor.t) (w : world),
    SPS30Sensor.sleep_unsupported s = false ->
    guarded_transition
      (SPS30Sensor._initialized s && SPS30Sensor._sleeping s)
      sps30_wake_up (SPS30Sensor.set_sleeping false) s w (SPS30Sensor.wake_up s w).
Proof.
  intros s w Hfw. unfold SPS30Sensor.wake_up, guarded_transition. unfold_monad.
  rewrite Hfw.
  destruct (SPS30Sensor._initialized s), (SPS30Sensor._sleeping s); cbn; eauto.
  destruct (status (driver w (trace w) sps30_wake_up) =? 0); cbn; eauto.
Qed.

Lemma sps30_sleep_keeps_measuring :
  forall (s : SPS30Sensor.t) (w : world),
    SPS30Sensor._measurement_started (state_of (SPS30Sensor.sleep s w))
    = SPS30Sensor._measurement_started s.
Proof.
  intros s w. unfold SPS30Sensor.sleep. exec; congruence.
Qed.

(** C6: with a cached firmware major version below 2, [sleep] and
    [wake_up] of the particulate machine return normally and change neither
    the machine nor the trace (no bus command); from version 2 on they are
    the guarded transitions: refused with [ReadError] unless the machine is
    initialised and idle (for [sleep]) or initialised and sleeping (for
    [wake_up]), and otherwise issuing the bus command. *)
Theorem sps30_sleep_wake_by_firmware :
  forall (s : SPS30Sensor.t) (w : world) (v : SPS30_VersionInfo),
    SPS30Sensor.version_info s = Some v ->
    (firmware_major v < 2 ->
       SPS30Sensor.sleep s w = (Return tt, s, w) /\
       SPS30Sensor.wake_up s w = (Return tt, s, w))
    /\
    (2 <= firmware_major v ->
       guarded_transition
         (SPS30Sensor._initialized s && negb (SPS30Sensor._measurement_started s))
         sps30_sleep (SPS30Sensor.set_sleeping true) s w (SPS30Sensor.sleep s w)
       /\
       guarded_transition
         (SPS30Sensor._initialized s && SPS30Sensor._sleeping s)
         sps30_wake_up (SPS30Sensor.set_sleeping false) s w (SPS30Sensor.wake_up s w)).
Proof.
  intros s w v Hv. pose proof (sps30_unsupported_of_version s v Hv) as Hfw. split.
  - intros Hold. apply sps30_sleep_wake_unsupported. rewrite Hfw. now apply Z.ltb_lt.
  - intros Hnew.
    assert (SPS30Sensor.sleep_unsupported s = false) as Hopen
      by (rewrite Hfw; apply Z.ltb_ge; exact Hnew).
    split; [ now apply sps30_sleep_supported | now apply sps30_wake_up_supported ].
Qed.

Lemma sps30_sleep_wake_by_firmware_witness :
  SPS30Sensor.sleep (fst (sps30_on_bench 1 0)) (snd (sps30_on_bench 1 0))
  = (Return tt, fst (sps30_on_bench 1 0), snd (sps30_on_bench 1 0))
  /\ SPS30Sensor.wake_up (fst (sps30_on_bench 1 0)) (snd (sps30_on_bench 1 0))
     = (Return tt, fst (sps30_on_bench 1 0), snd (sps30_on_bench 1 0)).
Proof.
  apply (proj1 (sps30_sleep_wake_by_firmware
                  (fst (sps30_on_bench 1 0)) (snd (sps30_on_bench 1 0))
                  {| firmware_major := 1; firmware_minor := 0; hardware_revision := 7;
                     shdlc_major := 2; shdlc_minor := 0 |}
                  eq_refl)).
  reflexivity.
Defined.

Lemma sps30_sleep_refused_while_measuring :
  forall (s : SPS30Sensor.t) (w : world),
    SPS30Sensor.sleep_unsupported s = false ->
    SPS30Sensor._measurement_started s = true ->
    exists e, SPS30Sensor.sleep s w = (Raise e, s, w) /\ is_ReadError e = true.
Proof.
  intros s w Hfw Hmeas. unfold SPS30Sensor.sleep. unfold_monad.
  rewrite Hfw, Hmeas. destruct (SPS30Sensor._initialized s); cbn; eauto.
Qed.

Lemma sps30_sleep_only_sleep_command :
  forall (s : SPS30Sensor.t) (w : world),
    trace (world_of (SPS30Sensor.sleep s w)) = trace w
    \/ exists r, trace (world_of (SPS30Sensor.sleep s w)) = Bus sps30_sleep r :: trace w.
Proof.
  intros s w. unfold SPS30Sensor.sleep. exec; eauto.
Qed.

(** C5, as the code has it: [sleep] never changes the measurement flag
    and issues no bus command other than the sleep command (measurement is
    not stopped on the caller's behalf); and when the cached firmware major
    version is at least 2, [sleep] on a machine whose measurement is active
    raises [ReadError], leaving the machine (the flag included) and the
    trace as they were. *)
Theorem sps30_sleep_while_measuring :
  forall (s : SPS30Sensor.t) (w : world),
    SPS30Sensor._measurement_started (state_of (SPS30Sensor.sleep s w))
    = SPS30Sensor._measurement_started s
    /\
    (trace (world_of (SPS30Sensor.sleep s w)) = trace w
     \/ exists r, trace (world_of (SPS30Sensor.sleep s w)) = Bus sps30_sleep r :: trace w)
    /\
    forall v : SPS30_VersionInfo,
      SPS30Sensor.version_info s = Some v ->
      2 <= firmware_major v ->
      SPS30Sensor._measurement_started s = true ->
      exists e, SPS30Sensor.sleep s w = (Raise e, s, w) /\ is_ReadError e = true.
Proof.
  intros s w. split; [ | split ].
  - apply sps30_sleep_keeps_measuring.
  - apply sps30_sleep_only_sleep_command.
  - intros v Hv Hnew Hmeas. apply sps30_sleep_refused_while_measuring; [ | exact Hmeas ].
    rewrite (sps30_unsupported_of_version s v Hv). now apply Z.ltb_ge.
Qed.

Lemma sps30_sleep_while_measuring_witness :
  exists e,
    SPS30Sensor.sleep (fst (sps30_on_bench 2 0)) (snd (sps30_on_bench 2 0))
    = (Raise e, fst (sps30_on_bench 2 0), snd (sps30_on_bench 2 0))
    /\ is_ReadError e = true.
Proof.
  apply (proj2 (proj2 (sps30_sleep_while_measuring
                         (fst (sps30_on_bench 2 0)) (snd (sps30_on_bench 2 0))))
               {| firmware_major := 2; firmware_minor := 0; hardware_revision := 7;
                  shdlc_major := 2; shdlc_minor := 0 |}).
  - reflexivity.
  - discriminate.
  - reflexivity.
Defined.

(** C5 as stated fails on a machine initialised against firmware 1.0: its
    measurement is active, yet [sleep] returns normally. *)
Lemma sps30_sleep_old_firmware_measuring :
  SPS30Sensor._measurement_started (fst (sps30_on_bench 1 0)) = true
  /\ SPS30Sensor.sleep (fst (sps30_on_bench 1 0)) (snd (sps30_on_bench 1 0))
     = (Return tt, fst (sps30_on_bench 1 0), snd (sps30_on_bench 1 0)).
Proof. split; reflexivity. Qed.

Lemma measurement_dict_dom :
  forall m : SPS30_Measurement,
    dom (SPS30Sensor.measurement_dict m) = list_to_set measurement_keys.
Proof.
  intros m. unfold SPS30Sensor.measurement_dict, measurement_keys.
  rewrite !dom_insert_L, dom_empty_L. cbn. set_solver.
Qed.

(** C7, as the code has it: on an initialised, measuring particulate
    machine [read] issues the read command and looks at the sign of its
    status.  Status -1 raises the [ReadError] "not enough data"; any other
    negative status raises the [ReadError] "failed to read", each carrying
    the status as its code; a status that is not negative returns the
    record of the nine concentrations and the typical particle size. *)
Theorem sps30_read_status :
  forall (s : SPS30Sensor.t) (w : world) (temperature humidity : option float),
    SPS30Sensor._initialized s = true ->
    SPS30Sensor._measurement_started s = true ->
    let r := driver w (trace w) sps30_read_measurement in
    let w' := emit (Bus sps30_read_measurement r) w in
    (status r = -1 ->
       exists e, SPS30Sensor.read temperature humidity s w = (Raise e, s, w')
                 /\ is_ReadError e = true /\ exn_code e = Some (-1)
                 /\ exn_message e
                    = "Not enough data available (the sensor needs more time).")
    /\
    (status r < -1 ->
       exists e, SPS30Sensor.read temperature humidity s w = (Raise e, s, w')
                 /\ is_ReadError e = true /\ exn_code e = Some (status r)
                 /\ exn_message e = "Failed to read particulate matter data")
    /\
    (0 <= status r ->
       SPS30Sensor.read temperature humidity s w
       = (Return (SPS30Sensor.measurement_dict (out_measurement r)), s, w')
       /\ dom (SPS30Sensor.measurement_dict (out_measurement r))
          = list_to_set measurement_keys).
Proof.
  intros s w temperature humidity Hinit Hmeas r w'.
  unfold SPS30Sensor.read. unfold_monad. rewrite Hinit, Hmeas. cbn.
  fold r. fold w'. split; [ | split ].
  - intros Hst. rewrite Hst. cbn. eauto 10.
  - intros Hst. destruct (Z.ltb_spec (status r) 0) as [_ | ?]; [ | lia ].
    destruct (Z.eqb_spec (status r) (-1)) as [? | _]; [ lia | ]. eauto 10.
  - intros Hst. split; [ | apply measurement_dict_dom ].
    destruct (Z.ltb_spec (status r) 0) as [? | _]; [ lia | ]. reflexivity.
Qed.

Lemma sps30_read_status_witness :
  exists e,
    SPS30Sensor.read None None (fst (sps30_on_bench 2 (-1))) (snd (sps30_on_bench 2 (-1)))
    = (Raise e, fst (sps30_on_bench 2 (-1)),
       emit (Bus sps30_read_measurement
               {| status := -1; out := OutMeasurement sample_measurement |})
         (snd (sps30_on_bench 2 (-1))))
    /\ is_ReadError e = true /\ exn_code e = Some (-1)
    /\ exn_message e = "Not enough data available (the sensor needs more time).".
Proof.
  apply (proj1 (sps30_read_status
                  (fst (sps30_on_bench 2 (-1))) (snd (sps30_on_bench 2 (-1)))
                  None None eq_refl eq_refl)).
  reflexivity.
Defined.

(** C7 as stated fails for a positive status: the read command answers 1
    and [read] returns the record. *)
Lemma sps30_read_positive_status :
  status (driver (snd (sps30_on_bench 2 1)) (trace (snd (sps30_on_bench 2 1)))
            sps30_read_measurement) = 1
  /\ outcome_of (SPS30Sensor.read None None
                   (fst (sps30_on_bench 2 1)) (snd (sps30_on_bench 2 1)))
     = Return (SPS30Sensor.measurement_dict sample_measurement).
Proof. split; reflexivity. Qed.

(** ** The CO2 machine *)

(** C8: in a CO2 machine that has been initialised, [read] with the
    temperature or the humidity argument absent raises [ValueError] (the
    argument error, not a [ReadError]) and leaves both the machine and the
    trace as they were: no bus command is issued. *)
Theorem stc31c_read_missing_argument :
  forall (s : STC31CSensor.t) (w : world) (temperature humidity : option float),
    STC31CSensor._initialized s = true ->
    temperature = None \/ humidity = None ->
    exists e, STC31CSensor.read temperature humidity s w = (Raise e, s, w)
              /\ is_ValueError e = true /\ is_ReadError e = false.
Proof.
  intros s w temperature humidity Hinit Hmissing.
  unfold STC31CSensor.read. unfold_monad. rewrite Hinit. cbn.
  destruct Hmissing as [-> | ->]; [ | destruct temperature ]; eauto.
Qed.

Lemma stc31c_read_missing_argument_witness :
  exists e,
    STC31CSensor.read None (Some 50%float)
      (STC31CSensor.set_initialized true (STC31CSensor.__init__ false))
      (fresh_world quiet_driver)
    = (Raise e, STC31CSensor.set_initialized true (STC31CSensor.__init__ false),
       fresh_world quiet_driver)
    /\ is_ValueError e = true /\ is_ReadError e = false.
Proof.
  apply (stc31c_read_missing_argument
           (STC31CSensor.set_initialized true (STC31CSensor.__init__ false))
           (fresh_world quiet_driver) None (Some 50%float)).
  - reflexivity.
  - left; reflexivity.
Defined.

(** ** The temperature/humidity machine *)

(** C9, on the code: [sleep] and [wake_up] of the temperature/humidity
    machine return normally in every state, without touching the machine
    or the bus; nothing is signalled. *)
Theorem shtc3_sleep_wake_return_silently :
  forall (s : SHTC3Sensor.t) (w : world),
    SHTC3Sensor.sleep s w = (Return tt, s, w)
    /\ SHTC3Sensor.wake_up s w = (Return tt, s, w).
Proof. intros s w. split; reflexivity. Qed.

(** ** Calls on a machine that is not initialised *)

Lemma stc31c_read_uninitialized :
  forall (s : STC31CSensor.t) (w : world) (temperature humidity : option float),
    STC31CSensor._initialized s = false ->
    exists e, STC31CSensor.read temperature humidity s w = (Raise e, s, w)
              /\ is_uninitialized_error e = true.
Proof.
  intros s w temperature humidity Hinit. unfold STC31CSensor.read. unfold_monad.
  rewrite Hinit. cbn. eauto.
Qed.

Lemma shtc3_uninitialized :
  forall (s : SHTC3Sensor.t) (w : world),
    SHTC3Sensor._initialized s = false ->
    (forall temperature humidity mode,
        exists e, SHTC3Sensor.read temperature humidity mode s w = (Raise e, s, w)
                  /\ is_uninitialized_error e = true)
    /\ (exists e, SHTC3Sensor.get_info s w = (Raise e, s, w)
                  /\ is_uninitialized_error e = true)
    /\ (exists e, SHTC3Sensor.soft_reset s w = (Raise e, s, w)
                  /\ is_uninitialized_error e = true).
Proof.
  intros s w Hinit.
  unfold SHTC3Sensor.read, SHTC3Sensor.get_info, SHTC3Sensor.soft_reset.
  unfold_monad. rewrite Hinit. cbn. eauto 10.
Qed.

Lemma sps30_read_uninitialized :
  forall (s : SPS30Sensor.t) (w : world) (temperature humidity : option float),
    SPS30Sensor._initialized s = false ->
    exists e, SPS30Sensor.read temperature humidity s w = (Raise e, s, w)
              /\ is_uninitialized_error e = true.
Proof.
  intros s w temperature humidity Hinit. unfold SPS30Sensor.read. unfold_monad.
  rewrite Hinit. cbn. eauto.
Qed.

Lemma sps30_sleep_wake_uninitialized :
  forall (s : SPS30Sensor.t) (w : world),
    SPS30Sensor._initialized s = false ->
    SPS30Sensor.sleep_unsupported s = false ->
    (exists e, SPS30Sensor.sleep s w = (Raise e, s, w)
               /\ is_uninitialized_error e = true)
    /\ (exists e, SPS30Sensor.wake_up s w = (Raise e, s, w)
                  /\ is_uninitialized_error e = true).
Proof.
  intros s w Hinit Hfw. unfold SPS30Sensor.sleep, SPS30Sensor.wake_up.
  unfold_monad. rewrite Hinit, Hfw. cbn. eauto 10.
Qed.

Lemma measuring_is_initialized_dispatch :
  forall (op : SPS30Sensor.method) (s : SPS30Sensor.t) (w : world),
    measuring_is_initialized s = true ->
    measuring_is_initialized (state_of (SPS30Sensor.dispatch op s w)) = true.
Proof.
  intros op s w Hinv. unfold measuring_is_initialized in *.
  destruct op; unfold SPS30Sensor.dispatch, SPS30Sensor.discard;
    unfold SPS30Sensor.initialize, SPS30Sensor.stop_measurement, SPS30Sensor.read,
      SPS30Sensor.sleep, SPS30Sensor.wake_up, SPS30Sensor.start_manual_fan_cleaning,
      SPS30Sensor.set_fan_auto_cleaning_interval_days,
      SPS30Sensor.get_fan_auto_cleaning_interval_days, SPS30Sensor.reset,
      SPS30Sensor.close, SPS30Sensor.get_info;
    exec; try exact Hinv; try reflexivity;
    destruct (SPS30Sensor._measurement_started s); try reflexivity; try exact Hinv;
    try discriminate.
Qed.

Lemma measuring_is_initialized_run :
  forall (ops : list SPS30Sensor.method) (sw : SPS30Sensor.t * world),
    measuring_is_initialized (fst sw) = true ->
    measuring_is_initialized (fst (SPS30Sensor.run ops sw)) = true.
Proof.
  unfold SPS30Sensor.run.
  induction ops as [ | op ops IH ]; intros [s w] Hinv; cbn [fold_left].
  - exact Hinv.
  - apply IH. unfold SPS30Sensor.invoke. cbn [fst snd] in *.
    pose proof (measuring_is_initialized_dispatch op s w Hinv) as Hstep.
    destruct (SPS30Sensor.dispatch op s w) as [[r s'] w']. exact Hstep.
Qed.

Lemma sps30_idle_calls_refused :
  forall (s : SPS30Sensor.t) (w : world),
    SPS30Sensor._measurement_started s = false ->
    (exists e, SPS30Sensor.stop_measurement s w = (Raise e, s, w)
               /\ is_uninitialized_error e = true)
    /\ (exists e, SPS30Sensor.start_manual_fan_cleaning s w = (Raise e, s, w)
                  /\ is_uninitialized_error e = true).
Proof.
  intros s w Hidle.
  unfold SPS30Sensor.stop_measurement, SPS30Sensor.start_manual_fan_cleaning.
  unfold_monad. rewrite Hidle. cbn. eauto 10.
Qed.

(** C4, as the code has it: while a machine is not initialised, [read]
    of each of the three sensors, [get_info] and [soft_reset] of the
    temperature/humidity sensor, [stop_measurement] and
    [start_manual_fan_cleaning] of the particulate sensor (in any state a
    new machine can reach: a machine that is not initialised is not
    measuring), and [sleep] and [wake_up] of the particulate sensor with a
    cached firmware major version of at least 2, raise a [ReadError] with
    code -1 and leave the machine and the trace as they were. *)
Theorem uninitialized_calls_refused :
  forall w : world,
    (forall (s : STC31CSensor.t) temperature humidity,
        STC31CSensor._initialized s = false ->
        exists e, STC31CSensor.read temperature humidity s w = (Raise e, s, w)
                  /\ is_uninitialized_error e = true)
    /\
    (forall (s : SHTC3Sensor.t),
        SHTC3Sensor._initialized s = false ->
        (forall temperature humidity mode,
            exists e, SHTC3Sensor.read temperature humidity mode s w = (Raise e, s, w)
                      /\ is_uninitialized_error e = true)
        /\ (exists e, SHTC3Sensor.get_info s w = (Raise e, s, w)
                      /\ is_uninitialized_error e = true)
        /\ (exists e, SHTC3Sensor.soft_reset s w = (Raise e, s, w)
                      /\ is_uninitialized_error e = true))
    /\
    (forall (s : SPS30Sensor.t),
        SPS30Sensor._initialized s = false ->
        (forall temperature humidity,
            exists e, SPS30Sensor.read temperature humidity s w = (Raise e, s, w)
                      /\ is_uninitialized_error e = true)
        /\
        (forall v : SPS30_VersionInfo,
            SPS30Sensor.version_info s = Some v ->
            2 <= firmware_major v ->
            (exists e, SPS30Sensor.sleep s w = (Raise e, s, w)
                       /\ is_uninitialized_error e = true)
            /\ (exists e, SPS30Sensor.wake_up s w = (Raise e, s, w)
                          /\ is_uninitialized_error e = true)))
    /\
    (forall (ops : list SPS30Sensor.method) (w0 : world),
        let s := fst (SPS30Sensor.run ops (SPS30Sensor.__init__, w0)) in
        SPS30Sensor._initialized s = false ->
        (exists e, SPS30Sensor.stop_measurement s w = (Raise e, s, w)
                   /\ is_uninitialized_error e = true)
        /\ (exists e, SPS30Sensor.start_manual_fan_cleaning s w = (Raise e, s, w)
                      /\ is_uninitialized_error e = true)).
Proof.
  intros w. split; [ | split; [ | split ] ].
  - intros s temperature humidity Hinit. now apply stc31c_read_uninitialized.
  - intros s Hinit. now apply shtc3_uninitialized.
  - intros s Hinit. split.
    + intros temperature humidity. now apply sps30_read_uninitialized.
    + intros v Hv Hnew. apply sps30_sleep_wake_uninitialized; [ exact Hinit | ].
      rewrite (sps30_unsupported_of_version s v Hv). now apply Z.ltb_ge.
  - intros ops w0 s Hinit. apply sps30_idle_calls_refused.
    pose proof (measuring_is_initialized_run ops (SPS30Sensor.__init__, w0) eq_refl)
      as Hinv.
    fold s in Hinv. unfold measuring_is_initialized in Hinv. rewrite Hinit in Hinv.
    now destruct (SPS30Sensor._measurement_started s).
Qed.

Lemma uninitialized_calls_refused_witness :
  exists e,
    SPS30Sensor.stop_measurement
      (fst (SPS30Sensor.run [SPS30Sensor.Initialize 4; SPS30Sensor.Close]
              (SPS30Sensor.__init__, fresh_world bench_probe_fault)))
      (fresh_world quiet_driver)
    = (Raise e,
       fst (SPS30Sensor.run [SPS30Sensor.Initialize 4; SPS30Sensor.Close]
              (SPS30Sensor.__init__, fresh_world bench_probe_fault)),
       fresh_world quiet_driver)
    /\ is_uninitialized_error e = true.
Proof.
  apply (proj1 (proj2 (proj2 (proj2 (uninitialized_calls_refused
                                       (fresh_world quiet_driver))))
                  [SPS30Sensor.Initialize 4; SPS30Sensor.Close]
                  (fresh_world bench_probe_fault)
                  eq_refl)).
Defined.

(** C4 as stated fails for each of the other public operations: on a
    machine that was never initialised, with a library that answers 0,
    every one of them returns normally.  For the CO2 sensor: [get_info],
    [forced_recalibration], enabling and disabling self-calibration,
    [sleep] and [wake_up].  For the temperature/humidity sensor: [sleep]
    and [wake_up].  For the particulate sensor: [sleep] and [wake_up] (no
    version record is cached), setting and getting the cleaning interval,
    [reset], [close] and [get_info]; and [sleep] and [wake_up] again on a
    machine whose [initialize] cached a firmware major version of 1 and
    then failed. *)
Lemma uninitialized_calls_accepted :
  STC31CSensor._initialized (STC31CSensor.__init__ false) = false
  /\ forallb
       (fun op => is_not_raise
                    (outcome_of (STC31CSensor.dispatch op (STC31CSensor.__init__ false)
                                   (fresh_world quiet_driver))))
       [STC31CSensor.GetInfo; STC31CSensor.ForcedRecalibration 400;
        STC31CSensor.EnableAutomaticSelfCalibration;
        STC31CSensor.DisableAutomaticSelfCalibration;
        STC31CSensor.Sleep; STC31CSensor.WakeUp] = true
  /\ SHTC3Sensor._initialized (SHTC3Sensor.__init__ SHTC3Sensor.default_i2c_address)
     = false
  /\ forallb
       (fun op => is_not_raise
                    (outcome_of (SHTC3Sensor.dispatch op
                                   (SHTC3Sensor.__init__ SHTC3Sensor.default_i2c_address)
                                   (fresh_world quiet_driver))))
       [SHTC3Sensor.Sleep; SHTC3Sensor.WakeUp] = true
  /\ SPS30Sensor._initialized SPS30Sensor.__init__ = false
  /\ forallb
       (fun op => is_not_raise
                    (outcome_of (SPS30Sensor.dispatch op SPS30Sensor.__init__
                                   (fresh_world quiet_driver))))
       [SPS30Sensor.Sleep; SPS30Sensor.WakeUp;
        SPS30Sensor.SetFanAutoCleaningIntervalDays 4;
        SPS30Sensor.GetFanAutoCleaningIntervalDays;
        SPS30Sensor.Reset; SPS30Sensor.Close; SPS30Sensor.GetInfo] = true
  /\ SPS30Sensor._initialized
       (fst (SPS30Sensor.run [SPS30Sensor.Initialize 4]
               (SPS30Sensor.__init__, fresh_world bench_old_start_fault)))
     = false
  /\ option_map firmware_major
       (SPS30Sensor.version_info
          (fst (SPS30Sensor.run [SPS30Sensor.Initialize 4]
                  (SPS30Sensor.__init__, fresh_world bench_old_start_fault))))
     = Some 1
  /\ forallb
       (fun op => is_not_raise
                    (outcome_of
                       (SPS30Sensor.dispatch op
                          (fst (SPS30Sensor.run [SPS30Sensor.Initialize 4]
                                  (SPS30Sensor.__init__,
                                   fresh_world bench_old_start_fault)))
                          (fresh_world quiet_driver))))
       [SPS30Sensor.Sleep; SPS30Sensor.WakeUp] = true.
Proof. repeat split; vm_compute; reflexivity. Qed.

(** ** The version record of the particulate machine *)

Lemma version_cached_dispatch :
  forall (op : SPS30Sensor.method) (s : SPS30Sensor.t) (w : world),
    SPS30Sensor.version_cached s = true ->
    SPS30Sensor.version_cached (state_of (SPS30Sensor.dispatch op s w)) = true.
Proof.
  intros op s w Hinv. unfold SPS30Sensor.version_cached in *.
  destruct op; unfold SPS30Sensor.dispatch, SPS30Sensor.discard;
    unfold SPS30Sensor.initialize, SPS30Sensor.stop_measurement, SPS30Sensor.read,
      SPS30Sensor.sleep, SPS30Sensor.wake_up, SPS30Sensor.start_manual_fan_cleaning,
      SPS30Sensor.set_fan_auto_cleaning_interval_days,
      SPS30Sensor.get_fan_auto_cleaning_interval_days, SPS30Sensor.reset,
      SPS30Sensor.close, SPS30Sensor.get_info;
    exec; try exact Hinv; try reflexivity;
    destruct (SPS30Sensor._initialized s); try reflexivity; try exact Hinv.
Qed.

Lemma version_cached_invoke :
  forall (op : SPS30Sensor.method) (sw : SPS30Sensor.t * world),
    SPS30Sensor.version_cached (fst sw) = true ->
    SPS30Sensor.version_cached (fst (SPS30Sensor.invoke op sw)) = true.
Proof.
  intros op [s w] Hinv. unfold SPS30Sensor.invoke. cbn [fst snd] in *.
  pose proof (version_cached_dispatch op s w Hinv) as Hstep.
  destruct (SPS30Sensor.dispatch op s w) as [[r s'] w']. exact Hstep.
Qed.

Lemma version_cached_run :
  forall (ops : list SPS30Sensor.method) (sw : SPS30Sensor.t * world),
    SPS30Sensor.version_cached (fst sw) = true ->
    SPS30Sensor.version_cached (fst (SPS30Sensor.run ops sw)) = true.
Proof.
  unfold SPS30Sensor.run.
  induction ops as [ | op ops IH ]; intros sw Hinv; cbn [fold_left].
  - exact Hinv.
  - apply IH. now apply version_cached_invoke.
Qed.

Lemma version_cached_elim :
  forall s : SPS30Sensor.t,
    SPS30Sensor.version_cached s = true ->
    SPS30Sensor._initialized s = true ->
    exists v, SPS30Sensor.version_info s = Some v
              /\ SPS30Sensor.sleep_unsupported s = (firmware_major v <? 2).
Proof.
  intros s Hinv Hinit. unfold SPS30Sensor.version_cached in Hinv.
  rewrite Hinit in Hinv. unfold SPS30Sensor.sleep_unsupported.
  destruct (SPS30Sensor.version_info s) as [v | ]; [ eauto | discriminate ].
Qed.

(** C10: a new particulate machine is not initialised; every public
    operation, whatever the library answers and whether it returns or
    raises, keeps the property that an initialised machine has its version
    record; so after any sequence of operations on a new machine, if the
    machine is initialised the firmware check of [sleep] and [wake_up]
    finds a version record and decides on its firmware major version. *)
Theorem sps30_initialized_has_version :
  SPS30Sensor._initialized SPS30Sensor.__init__ = false
  /\
  (forall (op : SPS30Sensor.method) (s : SPS30Sensor.t) (w : world),
      SPS30Sensor.version_cached s = true ->
      SPS30Sensor.version_cached (state_of (SPS30Sensor.dispatch op s w)) = true)
  /\
  (forall (ops : list SPS30Sensor.method) (w : world),
      let s := fst (SPS30Sensor.run ops (SPS30Sensor.__init__, w)) in
      SPS30Sensor._initialized s = true ->
      exists v, SPS30Sensor.version_info s = Some v
                /\ SPS30Sensor.sleep_unsupported s = (firmware_major v <? 2)).
Proof.
  split; [ reflexivity | split ].
  - exact version_cached_dispatch.
  - intros ops w s Hinit. apply version_cached_elim; [ | exact Hinit ].
    subst s. now apply version_cached_run.
Qed.

Lemma sps30_initialized_has_version_witness :
  exists v,
    SPS30Sensor.version_info
      (fst (SPS30Sensor.run [SPS30Sensor.Initialize 4; SPS30Sensor.StopMeasurement;
                             SPS30Sensor.Sleep; SPS30Sensor.Close]
              (SPS30Sensor.__init__, fresh_world (bench 2 0 0))))
    = Some v
    /\ SPS30Sensor.sleep_unsupported
         (fst (SPS30Sensor.run [SPS30Sensor.Initialize 4; SPS30Sensor.StopMeasurement;
                                SPS30Sensor.Sleep; SPS30Sensor.Close]
                 (SPS30Sensor.__init__, fresh_world (bench 2 0 0))))
       = (firmware_major v <? 2).
Proof.
  apply (proj2 (proj2 sps30_initialized_has_version)
           [SPS30Sensor.Initialize 4; SPS30Sensor.StopMeasurement;
            SPS30Sensor.Sleep; SPS30Sensor.Close]
           (fresh_world (bench 2 0 0))).
  reflexivity.
Defined.

(** ** Initialisation of the three machines *)









Lemma shutdown_returns :
  forall (self : SensorManager.t) (w : world),
    outcome_of (SensorManager.shutdown self w) = Return tt.
Proof.
  intros [e1 e2 e3 o1 o2 o3] w.
  unfold SensorManager.shutdown, SensorManager.when, SensorManager.on_sps30,
    SensorManager.set_sps30, SPS30Sensor.stop_measurement, SPS30Sensor.close.
  destruct e3, o3 as [s3 | ]; exec; reflexivity.
Qed.


Lemma trace_later :
  forall (x : event) (l later rest : list event),
    l = (later ++ rest)%list -> x :: l = ((x :: later) ++ rest)%list.
Proof. intros x l later rest ->. reflexivity. Qed.

Lemma trace_base :
  forall base : list event, base = ([] ++ base)%list.
Proof. reflexivity. Qed.



(** ** Framing: what a method leaves alone *)

Lemma grows_refl : forall w : world, grows w w.
Proof. intros w. exists []. reflexivity. Qed.

Lemma grows_trans : forall w1 w2 w3 : world, grows w1 w2 -> grows w2 w3 -> grows w1 w3.
Proof.
  intros w1 w2 w3 [l1 H1] [l2 H2]. exists (l2 ++ l1)%list.
  rewrite H2, H1. apply app_assoc.
Qed.

Lemma grows_emit : forall (e : event) (w : world), grows w (emit e w).
Proof. intros e w. exists [e]. reflexivity. Qed.

Section Frame.

Context {S : Type} (R : S -> S -> Prop) `{!PreOrder R}.

Lemma frame_ret : forall {A} (a : A), frame R (ret a).
Proof. intros A a s w. split; [ reflexivity | apply grows_refl ]. Qed.

Lemma frame_raise : forall {A} (e : exn), frame R (@raise S A e).
Proof. intros A e s w. split; [ reflexivity | apply grows_refl ]. Qed.

Lemma frame_get : frame R (@get S).
Proof. intros s w. split; [ reflexivity | apply grows_refl ]. Qed.

Lemma frame_call : forall c : cmd, frame R (@call S c).
Proof. intros c s w. split; [ reflexivity | apply grows_emit ]. Qed.

Lemma frame_time_sleep : forall ms : Z, frame R (@time_sleep S ms).
Proof. intros ms s w. split; [ reflexivity | apply grows_emit ]. Qed.

Lemma frame_logger :
  forall (lvl : level) (fmt : string) (arg : option exn), frame R (@logger S lvl fmt arg).
Proof. intros lvl fmt arg s w. split; [ reflexivity | apply grows_emit ]. Qed.

Lemma frame_assert : forall cond : bool, frame R (@assert_ S cond).
Proof. intros [] s w; (split; [ reflexivity | apply grows_refl ]). Qed.

Lemma frame_modify : forall f : S -> S, (forall s, R s (f s)) -> frame R (modify f).
Proof. intros f Hf s w. split; [ apply Hf | apply grows_refl ]. Qed.

Lemma frame_bind :
  forall {A B} (m : M S A) (k : A -> M S B),
    frame R m -> (forall a, frame R (k a)) -> frame R (bind m k).
Proof.
  intros A B m k Hm Hk s w. unfold bind. specialize (Hm s w).
  destruct (m s w) as [[[a | e] s1] w1]; cbn in Hm; [ | exact Hm ].
  destruct Hm as [HR Hg]. specialize (Hk a s1 w1). destruct Hk as [HR' Hg'].
  split; [ now transitivity s1 | now apply grows_trans with w1 ].
Qed.

Lemma frame_try_except :
  forall {A} (body : M S A) (handles : exn -> bool) (handler : exn -> M S A),
    frame R body -> (forall e, frame R (handler e)) ->
    frame R (try_except body handles handler).
Proof.
  intros A body handles handler Hb Hh s w. unfold try_except. specialize (Hb s w).
  destruct (body s w) as [[[a | e] s1] w1]; cbn in Hb; [ exact Hb | ].
  destruct (handles e); [ | exact Hb ].
  destruct Hb as [HR Hg]. specialize (Hh e s1 w1). destruct Hh as [HR' Hg'].
  split; [ now transitivity s1 | now apply grows_trans with w1 ].
Qed.

End Frame.

#[local] Instance any_change_preorder {S : Type} : PreOrder (@any_change S).
Proof. split; [ intros x | intros x y z _ _ ]; exact I. Qed.

#[local] Instance same_shape_preorder : PreOrder same_shape.
Proof.
  split.
  - intros self. repeat split.
  - intros a b c (H1 & H2 & H3 & H4 & H5 & H6) (K1 & K2 & K3 & K4 & K5 & K6).
    repeat split; congruence.
Qed.

Ltac frame_step :=
  lazymatch goal with
  | |- frame ?R (ret _) => apply (frame_ret R)
  | |- frame ?R (raise _) => apply (frame_raise R)
  | |- frame ?R get => apply (frame_get R)
  | |- frame ?R (call _) => apply (frame_call R)
  | |- frame ?R (time_sleep _) => apply (frame_time_sleep R)
  | |- frame ?R (logger _ _ _) => apply (frame_logger R)
  | |- frame ?R (assert_ _) => apply (frame_assert R)
  | |- frame ?R (modify _) => apply (frame_modify R); intros ?; exact I
  | |- frame ?R (bind _ _) => apply (frame_bind R); [ | intros ? ]
  | |- frame ?R (try_except _ _ _) => apply (frame_try_except R); [ | intros ? ]
  | |- frame _ (if ?b then _ else _) => destruct b
  | |- frame _ (match ?o with Some _ => _ | None => _ end) => destruct o
  end.

Ltac frame_auto := repeat frame_step.

Lemma stc31c_initialize_frame : frame any_change STC31CSensor.initialize.
Proof.
  unfold STC31CSensor.initialize, STC31CSensor.enable_automatic_self_calibration,
    STC31CSensor.disable_automatic_self_calibration.
  frame_auto.
Qed.

Lemma shtc3_initialize_frame : frame any_change SHTC3Sensor.initialize.
Proof. unfold SHTC3Sensor.initialize. frame_auto. Qed.

Lemma sps30_initialize_frame : forall d : Z, frame any_change (SPS30Sensor.initialize d).
Proof. intros d. unfold SPS30Sensor.initialize. frame_auto. Qed.

Lemma sps30_stop_measurement_frame : frame any_change SPS30Sensor.stop_measurement.
Proof. unfold SPS30Sensor.stop_measurement. frame_auto. Qed.

Lemma sps30_close_frame : frame any_change SPS30Sensor.close.
Proof. unfold SPS30Sensor.close. frame_auto. Qed.

Lemma on_stc31c_frame :
  forall {A} (m : M STC31CSensor.t A),
    frame any_change m -> frame same_shape (SensorManager.on_stc31c m).
Proof.
  intros A m Hm self w. unfold SensorManager.on_stc31c.
  destruct (SensorManager.stc31c self) as [s | ] eqn:Hs.
  - destruct (Hm s w) as [_ Hg]. destruct (m s w) as [[r s'] w'].
    split; [ | exact Hg ]. unfold same_shape. cbn. rewrite Hs. repeat split.
  - split; [ reflexivity | apply grows_refl ].
Qed.

Lemma on_shtc3_frame :
  forall {A} (m : M SHTC3Sensor.t A),
    frame any_change m -> frame same_shape (SensorManager.on_shtc3 m).
Proof.
  intros A m Hm self w. unfold SensorManager.on_shtc3.
  destruct (SensorManager.shtc3 self) as [s | ] eqn:Hs.
  - destruct (Hm s w) as [_ Hg]. destruct (m s w) as [[r s'] w'].
    split; [ | exact Hg ]. unfold same_shape. cbn. rewrite Hs. repeat split.
  - split; [ reflexivity | apply grows_refl ].
Qed.

Lemma on_sps30_frame :
  forall {A} (m : M SPS30Sensor.t A),
    frame any_change m -> frame same_shape (SensorManager.on_sps30 m).
Proof.
  intros A m Hm self w. unfold SensorManager.on_sps30.
  destruct (SensorManager.sps30 self) as [s | ] eqn:Hs.
  - destruct (Hm s w) as [_ Hg]. destruct (m s w) as [[r s'] w'].
    split; [ | exact Hg ]. unfold same_shape. cbn. rewrite Hs. repeat split.
  - split; [ reflexivity | apply grows_refl ].
Qed.

Ltac manager_frame :=
  repeat first
    [ apply on_stc31c_frame;
      first [ apply stc31c_initialize_frame ]
    | apply on_shtc3_frame;
      first [ apply shtc3_initialize_frame ]
    | apply on_sps30_frame;
      first [ apply sps30_initialize_frame | apply sps30_stop_measurement_frame
            | apply sps30_close_frame | apply (frame_get any_change) ]
    | frame_step ].

Lemma shutdown_frame : frame same_shape SensorManager.shutdown.
Proof. unfold SensorManager.shutdown, SensorManager.when. manager_frame. Qed.

Lemma initialize_enabled_frame : frame same_shape SensorManager.initialize_enabled.
Proof. unfold SensorManager.initialize_enabled, SensorManager.when. manager_frame. Qed.

Lemma init_frame :
  forall (asc e1 e2 e3 : bool) (w : world),
    same_shape (SensorManager.attributes asc e1 e2 e3)
      (state_of (SensorManager.__init__ asc e1 e2 e3 w))
    /\ grows (SensorManager.announce e1 e2 w)
         (world_of (SensorManager.__init__ asc e1 e2 e3 w)).
Proof.
  intros asc e1 e2 e3 w. unfold SensorManager.__init__.
  apply (frame_try_except same_shape).
  - apply initialize_enabled_frame.
  - intros e. apply (frame_bind same_shape); [ apply shutdown_frame | intros ? ].
    apply (frame_raise same_shape).
Qed.

(** ** The coordinator *)

(** C3: constructing the manager with the CO2 sensor enabled and the
    temperature/humidity sensor disabled leaves, whatever the library
    answers and whether or not the constructor raises, a manager whose
    temperature/humidity flag is set and whose temperature/humidity object
    exists, and the override is logged before anything else happens. *)
Theorem co2_enables_temp_humidity :
  forall (co2_self_calibration enable_sps30 : bool) (w : world),
    SensorManager.enable_shtc3
      (state_of (SensorManager.__init__ co2_self_calibration true false enable_sps30 w))
    = true
    /\ SensorManager.is_not_None
         (SensorManager.shtc3
            (state_of (SensorManager.__init__ co2_self_calibration true false
                         enable_sps30 w)))
       = true
    /\ exists later,
        trace (world_of (SensorManager.__init__ co2_self_calibration true false
                           enable_sps30 w))
        = (later ++ Log ERROR SensorManager.override_message None :: trace w)%list.
Proof.
  intros asc e3 w.
  destruct (init_frame asc true false e3 w) as [(_ & H2 & _ & _ & H5 & _) Hg].
  split; [ exact H2 | split; [ exact H5 | exact Hg ] ].
Qed.




(** C1, on the code: with the three sensors brought up on the bench and
    a CO2 sensor whose measurement command answers -3, [read_all] raises
    that [ReadError]; the readings of the other sensors are not returned. *)
Theorem read_all_propagates_co2_fault :
  outcome_of (SensorManager.__init__ false true true true (fresh_world (bench 2 0 (-3))))
  = Return tt
  /\ outcome_of
       (SensorManager.read_all
          (state_of (SensorManager.__init__ false true true true
                       (fresh_world (bench 2 0 (-3)))))
          (world_of (SensorManager.__init__ false true true true
                       (fresh_world (bench 2 0 (-3))))))
     = Raise (SensorError ReadError "STC31-C" "Failed to read gas concentration"
                (Some (-3)) [("operation", DStr "stc3x_measure_gas_concentration")]).
Proof. split; vm_compute; reflexivity. Qed.

(** * Further properties of the code *)

(** ** Methods that cannot raise *)

Section Returns.

Context {S : Type}.

Lemma returns_ret : forall {A} (a : A), returns (@ret S A a).
Proof. intros A a s w. now exists a. Qed.

Lemma returns_get : returns (@get S).
Proof. intros s w. now exists s. Qed.

Lemma returns_logger :
  forall (lvl : level) (fmt : string) (arg : option exn), returns (@logger S lvl fmt arg).
Proof. intros lvl fmt arg s w. now exists tt. Qed.

Lemma returns_bind :
  forall {A B} (m : M S A) (k : A -> M S B),
    returns m -> (forall a, returns (k a)) -> returns (bind m k).
Proof.
  intros A B m k Hm Hk s w. unfold bind. destruct (Hm s w) as [a Ha].
  destruct (m s w) as [[r s1] w1]. cbn in Ha. subst r. apply Hk.
Qed.

(** A handler that catches everything and cannot raise makes the whole
    [try] statement unable to raise. *)
Lemma returns_try_except :
  forall {A} (body : M S A) (handler : exn -> M S A),
    (forall e, returns (handler e)) ->
    returns (try_except body (fun _ => true) handler).
Proof.
  intros A body handler Hh s w. unfold try_except.
  destruct (body s w) as [[[a | e] s1] w1]; [ now exists a | apply Hh ].
Qed.

End Returns.

Lemma bulk_handler_returns :
  forall (unsupported failed : string) (e : exn),
    returns (SensorManager.bulk_handler unsupported failed e).
Proof.
  intros unsupported failed e. unfold SensorManager.bulk_handler.
  destruct (is_NotImplementedError e); apply returns_logger.
Qed.

Ltac returns_step :=
  lazymatch goal with
  | |- returns (ret _) => apply returns_ret
  | |- returns get => apply returns_get
  | |- returns (logger _ _ _) => apply returns_logger
  | |- returns (SensorManager.bulk_handler _ _ _) => apply bulk_handler_returns
  | |- returns (bind _ _) => apply returns_bind; [ | intros ? ]
  | |- returns (try_except _ (fun _ => true) _) => apply returns_try_except; intros ?
  | |- returns (SensorManager.when ?b _) => unfold SensorManager.when; destruct b
  | |- returns (if ?b then _ else _) => destruct b
  end.

Lemma sleep_all_returns : returns SensorManager.sleep_all.
Proof. unfold SensorManager.sleep_all. repeat returns_step. Qed.

Lemma wake_up_all_returns : returns SensorManager.wake_up_all.
Proof. unfold SensorManager.wake_up_all. repeat returns_step. Qed.

Lemma stc31c_sleep_frame : frame any_change STC31CSensor.sleep.
Proof. unfold STC31CSensor.sleep. frame_auto. Qed.

Lemma stc31c_wake_up_frame : frame any_change STC31CSensor.wake_up.
Proof. unfold STC31CSensor.wake_up. frame_auto. Qed.

Lemma shtc3_sleep_frame : frame any_change SHTC3Sensor.sleep.
Proof. unfold SHTC3Sensor.sleep. frame_auto. Qed.

Lemma shtc3_wake_up_frame : frame any_change SHTC3Sensor.wake_up.
Proof. unfold SHTC3Sensor.wake_up. frame_auto. Qed.

Lemma sps30_sleep_frame : frame any_change SPS30Sensor.sleep.
Proof. unfold SPS30Sensor.sleep. frame_auto. Qed.

Lemma sps30_wake_up_frame : frame any_change SPS30Sensor.wake_up.
Proof. unfold SPS30Sensor.wake_up. frame_auto. Qed.

Lemma bulk_handler_frame :
  forall (unsupported failed : string) (e : exn),
    frame same_shape (SensorManager.bulk_handler unsupported failed e).
Proof.
  intros unsupported failed e. unfold SensorManager.bulk_handler. frame_auto.
Qed.

Ltac bulk_frame :=
  repeat first
    [ apply bulk_handler_frame
    | apply on_stc31c_frame;
      first [ apply stc31c_sleep_frame | apply stc31c_wake_up_frame ]
    | apply on_shtc3_frame;
      first [ apply shtc3_sleep_frame | apply shtc3_wake_up_frame ]
    | apply on_sps30_frame;
      first [ apply sps30_sleep_frame | apply sps30_wake_up_frame
            | apply sps30_stop_measurement_frame | apply (frame_get any_change) ]
    | frame_step ].

Lemma sleep_all_frame : frame same_shape SensorManager.sleep_all.
Proof. unfold SensorManager.sleep_all, SensorManager.when. bulk_frame. Qed.

Lemma wake_up_all_frame : frame same_shape SensorManager.wake_up_all.
Proof. unfold SensorManager.wake_up_all, SensorManager.when. bulk_frame. Qed.

Lemma sleep_all_attempts :
  forall (self : SensorManager.t) (w : world),
    let a1 := attempt (SensorManager.enable_stc31c self) (SensorManager.stc31c self)
                STC31CSensor.sleep "STC31C sensor does not support sleep mode"
                "Failed to put STC31C to sleep: %s" w in
    let a2 := attempt (SensorManager.enable_shtc3 self) (SensorManager.shtc3 self)
                SHTC3Sensor.sleep "SHTC3 sensor does not support sleep mode"
                "Failed to put SHTC3 to sleep: %s" (snd a1) in
    let a3 := attempt (SensorManager.enable_sps30 self) (SensorManager.sps30 self)
                stop_then_sleep "SPS30 sensor does not support sleep mode"
                "Failed to put SPS30 to sleep: %s" (snd a2) in
    SensorManager.sleep_all self w
    = (Return tt,
       {| SensorManager.enable_stc31c := SensorManager.enable_stc31c self;
          SensorManager.enable_shtc3 := SensorManager.enable_shtc3 self;
          SensorManager.enable_sps30 := SensorManager.enable_sps30 self;
          SensorManager.stc31c := fst a1;
          SensorManager.shtc3 := fst a2;
          SensorManager.sps30 := fst a3 |},
       snd a3).
Proof.
  intros [e1 e2 e3 o1 o2 o3] w.
  unfold SensorManager.sleep_all, SensorManager.when, SensorManager.on_stc31c,
    SensorManager.on_shtc3, SensorManager.on_sps30, SensorManager.bulk_handler,
    attempt, stop_then_sleep, STC31CSensor.sleep, SHTC3Sensor.sleep,
    SPS30Sensor.stop_measurement, SPS30Sensor.sleep.
  destruct e1, o1 as [s1 | ], e2, o2 as [s2 | ], e3, o3 as [s3 | ];
    exec; reflexivity.
Qed.

Lemma wake_up_all_attempts :
  forall (self : SensorManager.t) (w : world),
    let a1 := attempt (SensorManager.enable_stc31c self) (SensorManager.stc31c self)
                STC31CSensor.wake_up "STC31C sensor does not support wake-up"
                "Failed to wake up STC31C: %s" w in
    let a2 := attempt (SensorManager.enable_shtc3 self) (SensorManager.shtc3 self)
                SHTC3Sensor.wake_up "SHTC3 sensor does not support wake-up"
                "Failed to wake up SHTC3: %s" (snd a1) in
    let a3 := attempt (SensorManager.enable_sps30 self) (SensorManager.sps30 self)
                SPS30Sensor.wake_up "SPS30 sensor does not support wake-up"
                "Failed to wake up SPS30: %s" (snd a2) in
    SensorManager.wake_up_all self w
    = (Return tt,
       {| SensorManager.enable_stc31c := SensorManager.enable_stc31c self;
          SensorManager.enable_shtc3 := SensorManager.enable_shtc3 self;
          SensorManager.enable_sps30 := SensorManager.enable_sps30 self;
          SensorManager.stc31c := fst a1;
          SensorManager.shtc3 := fst a2;
          SensorManager.sps30 := fst a3 |},
       snd a3).
Proof.
  intros [e1 e2 e3 o1 o2 o3] w.
  unfold SensorManager.wake_up_all, SensorManager.when, SensorManager.on_stc31c,
    SensorManager.on_shtc3, SensorManager.on_sps30, SensorManager.bulk_handler,
    attempt, STC31CSensor.wake_up, SHTC3Sensor.wake_up, SPS30Sensor.wake_up.
  destruct e1, o1 as [s1 | ], e2, o2 as [s2 | ], e3, o3 as [s3 | ];
    exec; reflexivity.
Qed.

(** X1: [sleep_all] and [wake_up_all] return normally for every manager
    and every behaviour of the library, and what they do is three turns in
    the fixed order CO2, temperature/humidity, particulate.  In each turn
    the method of an enabled sensor is run in the world the previous turns
    left, whether those returned or raised; what it changed of its object
    is kept; and what it raises is caught and becomes a log record, at
    level WARNING with the exception (DEBUG for [NotImplementedError]).
    For the particulate sensor the method of [sleep_all] is: stop the
    measurement if it is running, then [sleep].  Neither operation changes
    the flags or which sensor objects exist. *)
Theorem bulk_operations_isolate_faults :
  forall (self : SensorManager.t) (w : world),
    (let a1 := attempt (SensorManager.enable_stc31c self) (SensorManager.stc31c self)
                 STC31CSensor.sleep "STC31C sensor does not support sleep mode"
                 "Failed to put STC31C to sleep: %s" w in
     let a2 := attempt (SensorManager.enable_shtc3 self) (SensorManager.shtc3 self)
                 SHTC3Sensor.sleep "SHTC3 sensor does not support sleep mode"
                 "Failed to put SHTC3 to sleep: %s" (snd a1) in
     let a3 := attempt (SensorManager.enable_sps30 self) (SensorManager.sps30 self)
                 stop_then_sleep "SPS30 sensor does not support sleep mode"
                 "Failed to put SPS30 to sleep: %s" (snd a2) in
     SensorManager.sleep_all self w
     = (Return tt,
        {| SensorManager.enable_stc31c := SensorManager.enable_stc31c self;
           SensorManager.enable_shtc3 := SensorManager.enable_shtc3 self;
           SensorManager.enable_sps30 := SensorManager.enable_sps30 self;
           SensorManager.stc31c := fst a1;
           SensorManager.shtc3 := fst a2;
           SensorManager.sps30 := fst a3 |},
        snd a3))
    /\
    (let a1 := attempt (SensorManager.enable_stc31c self) (SensorManager.stc31c self)
                 STC31CSensor.wake_up "STC31C sensor does not support wake-up"
                 "Failed to wake up STC31C: %s" w in
     let a2 := attempt (SensorManager.enable_shtc3 self) (SensorManager.shtc3 self)
                 SHTC3Sensor.wake_up "SHTC3 sensor does not support wake-up"
                 "Failed to wake up SHTC3: %s" (snd a1) in
     let a3 := attempt (SensorManager.enable_sps30 self) (SensorManager.sps30 self)
                 SPS30Sensor.wake_up "SPS30 sensor does not support wake-up"
                 "Failed to wake up SPS30: %s" (snd a2) in
     SensorManager.wake_up_all self w
     = (Return tt,
        {| SensorManager.enable_stc31c := SensorManager.enable_stc31c self;
           SensorManager.enable_shtc3 := SensorManager.enable_shtc3 self;
           SensorManager.enable_sps30 := SensorManager.enable_sps30 self;
           SensorManager.stc31c := fst a1;
           SensorManager.shtc3 := fst a2;
           SensorManager.sps30 := fst a3 |},
        snd a3))
    /\
    (same_shape self (state_of (SensorManager.sleep_all self w))
     /\ grows w (world_of (SensorManager.sleep_all self w)))
    /\
    (same_shape self (state_of (SensorManager.wake_up_all self w))
     /\ grows w (world_of (SensorManager.wake_up_all self w))).
Proof.
  intros self w.
  split; [ apply sleep_all_attempts | split; [ apply wake_up_all_attempts | ] ].
  split; [ apply sleep_all_frame | apply wake_up_all_frame ].
Qed.

(** ** Shutdown *)

Lemma shutdown_touches_only_sps30 :
  forall (self : SensorManager.t) (w : world),
    SensorManager.stc31c (state_of (SensorManager.shutdown self w))
    = SensorManager.stc31c self
    /\ SensorManager.shtc3 (state_of (SensorManager.shutdown self w))
       = SensorManager.shtc3 self
    /\ match SensorManager.sps30 self,
             SensorManager.sps30 (state_of (SensorManager.shutdown self w)) with
       | Some s, Some s' =>
           SPS30Sensor._initialized s' = SPS30Sensor._initialized s
           /\ SPS30Sensor._sleeping s' = SPS30Sensor._sleeping s
           /\ SPS30Sensor.version_info s' = SPS30Sensor.version_info s
           /\ SPS30Sensor.serial_number s' = SPS30Sensor.serial_number s
       | None, None => True
       | _, _ => False
       end.
Proof.
  intros [e1 e2 e3 o1 o2 o3] w.
  unfold SensorManager.shutdown, SensorManager.when, SensorManager.on_sps30,
    SensorManager.set_sps30, SPS30Sensor.stop_measurement, SPS30Sensor.close.
  destruct e3, o3 as [s3 | ]; exec; repeat split; reflexivity.
Qed.

(** X2: [shutdown] returns normally for every manager and every behaviour
    of the library, and so does a second [shutdown] run after it.  It
    leaves the CO2 and temperature/humidity objects as they were, and of
    the particulate object it can only change the measurement and UART
    flags: a machine that was initialised still counts as initialised. *)
Theorem shutdown_never_raises :
  forall (self : SensorManager.t) (w : world),
    outcome_of (SensorManager.shutdown self w) = Return tt
    /\ outcome_of (SensorManager.shutdown
                     (state_of (SensorManager.shutdown self w))
                     (world_of (SensorManager.shutdown self w))) = Return tt
    /\ SensorManager.stc31c (state_of (SensorManager.shutdown self w))
       = SensorManager.stc31c self
    /\ SensorManager.shtc3 (state_of (SensorManager.shutdown self w))
       = SensorManager.shtc3 self
    /\ match SensorManager.sps30 self,
             SensorManager.sps30 (state_of (SensorManager.shutdown self w)) with
       | Some s, Some s' =>
           SPS30Sensor._initialized s' = SPS30Sensor._initialized s
           /\ SPS30Sensor._sleeping s' = SPS30Sensor._sleeping s
           /\ SPS30Sensor.version_info s' = SPS30Sensor.version_info s
           /\ SPS30Sensor.serial_number s' = SPS30Sensor.serial_number s
       | None, None => True
       | _, _ => False
       end.
Proof.
  intros self w.
  split; [ apply shutdown_returns | split; [ apply shutdown_returns | ] ].
  apply shutdown_touches_only_sps30.
Qed.

(** ** Reading all sensors *)

Lemma shtc3_read_high_outcome :
  forall (s : SHTC3Sensor.t) (w : world),
    match SHTC3Sensor.read None None "high" s w with
    | (Return d, s', _) =>
        s' = s /\ SensorManager.truthy (Some d) = true
        /\ exists t h, d !! "temperature" = Some t /\ d !! "relative_humidity" = Some h
    | (Raise e, s', _) => s' = s /\ is_ReadError e = true
    end.
Proof.
  intros s w. unfold SHTC3Sensor.read. exec; try (split; reflexivity).
  destruct (out_floats _) as [t h]. cbn.
  split; [ reflexivity | split; [ reflexivity | ] ].
  exists t, h. split; reflexivity.
Qed.

Lemma stc31c_read_outcome :
  forall (t h : float) (s : STC31CSensor.t) (w : world),
    match STC31CSensor.read (Some t) (Some h) s w with
    | (Return _, s', _) => s' = s
    | (Raise e, s', _) => s' = s /\ is_ReadError e = true
    end.
Proof.
  intros t h s w. unfold STC31CSensor.read. exec; try (split; reflexivity).
  destruct (out_floats _) as [a b]. reflexivity.
Qed.

Lemma sps30_read_outcome :
  forall (s : SPS30Sensor.t) (w : world),
    match SPS30Sensor.read None None s w with
    | (Return _, s', _) => s' = s
    | (Raise e, s', _) => s' = s /\ is_ReadError e = true
    end.
Proof.
  intros s w. unfold SPS30Sensor.read. exec; try (split; reflexivity); reflexivity.
Qed.

Ltac keep_read :=
  cbn -[SHTC3Sensor.read STC31CSensor.read SPS30Sensor.read SensorManager.truthy] in *;
  try change (SensorManager.truthy None) with false;
  cbn -[SHTC3Sensor.read STC31CSensor.read SPS30Sensor.read SensorManager.truthy] in *.

Ltac sensor_read :=
  match goal with
  | |- context [SHTC3Sensor.read None None "high" ?s ?w] =>
      let H := fresh "Hsht" in
      pose proof (shtc3_read_high_outcome s w) as H;
      destruct (SHTC3Sensor.read None None "high" s w) as [[[? | ?] ?] ?];
      cbv beta iota in H;
      [ destruct H as (-> & ? & ? & ? & ? & ?) | destruct H as (-> & ?) ]
  | |- context [STC31CSensor.read (Some ?t) (Some ?h) ?s ?w] =>
      let H := fresh "Hstc" in
      pose proof (stc31c_read_outcome t h s w) as H;
      destruct (STC31CSensor.read (Some t) (Some h) s w) as [[[? | ?] ?] ?];
      cbv beta iota in H;
      [ subst | destruct H as (-> & ?) ]
  | |- context [SPS30Sensor.read None None ?s ?w] =>
      let H := fresh "Hsps" in
      pose proof (sps30_read_outcome s w) as H;
      destruct (SPS30Sensor.read None None s w) as [[[? | ?] ?] ?];
      cbv beta iota in H;
      [ subst | destruct H as (-> & ?) ]
  end.

Ltac use_sample :=
  repeat match goal with
         | H : SensorManager.truthy (Some _) = true |- _ => rewrite H; clear H
         | H : _ !! _ = Some _ |- _ => rewrite H; clear H
         end.

Lemma read_all_outcome :
  forall (self : SensorManager.t) (w : world),
    consistent self ->
    match SensorManager.read_all self w with
    | (Return d, self', _) =>
        self' = self
        /\ SensorManager.is_not_None (d !! "shtc3") = SensorManager.enable_shtc3 self
        /\ SensorManager.is_not_None (d !! "stc31c")
           = SensorManager.enable_stc31c self && SensorManager.enable_shtc3 self
        /\ SensorManager.is_not_None (d !! "sps30") = SensorManager.enable_sps30 self
    | (Raise e, self', _) => self' = self /\ is_ReadError e = true
    end.
Proof.
  intros [e1 e2 e3 o1 o2 o3] w (H1 & H2 & H3). cbn in H1, H2, H3.
  unfold SensorManager.read_all, SensorManager.on_stc31c, SensorManager.on_shtc3,
    SensorManager.on_sps30, SensorManager.getitem.
  unfold_monad.
  destruct e1, o1 as [s1 | ]; try (discriminate H1; reflexivity);
    destruct e2, o2 as [s2 | ]; try (discriminate H2; reflexivity);
    destruct e3, o3 as [s3 | ]; try (discriminate H3; reflexivity);
    keep_read;
    repeat (sensor_read; keep_read; use_sample; keep_read);
    repeat split; try reflexivity; try assumption.
Qed.

(** X3: on a manager whose enabled sensors exist, [read_all] leaves the
    manager and its three machines exactly as they were, whether it returns
    or raises, and the only exceptions it raises are [ReadError]s of the
    sensors: it never fails on a missing key or a missing object. *)
Theorem read_all_pure_and_read_errors_only :
  forall (self : SensorManager.t) (w : world),
    consistent self ->
    state_of (SensorManager.read_all self w) = self
    /\ forall e, outcome_of (SensorManager.read_all self w) = Raise e ->
                 is_ReadError e = true.
Proof.
  intros self w Hc. pose proof (read_all_outcome self w Hc) as H.
  destruct (SensorManager.read_all self w) as [[[d | e0] self'] w']; cbn.
  - destruct H as (-> & _). split; [ reflexivity | intros e He; discriminate He ].
  - destruct H as (-> & He0). split; [ reflexivity | ].
    intros e He. injection He as <-. exact He0.
Qed.

Lemma read_all_pure_and_read_errors_only_witness :
  state_of (SensorManager.read_all (fst (manager_on_bench 2 0 (-3)))
              (snd (manager_on_bench 2 0 (-3))))
  = fst (manager_on_bench 2 0 (-3))
  /\ forall e,
      outcome_of (SensorManager.read_all (fst (manager_on_bench 2 0 (-3)))
                    (snd (manager_on_bench 2 0 (-3)))) = Raise e ->
      is_ReadError e = true.
Proof.
  apply (read_all_pure_and_read_errors_only
           (fst (manager_on_bench 2 0 (-3))) (snd (manager_on_bench 2 0 (-3)))).
  repeat split; intros _; reflexivity.
Defined.

(** X4: when [read_all] returns on a manager whose enabled sensors exist,
    the result has the key "shtc3" exactly when the temperature/humidity
    sensor is enabled, the key "sps30" exactly when the particulate sensor
    is enabled, and the key "stc31c" exactly when both the CO2 sensor and
    the temperature/humidity sensor are enabled. *)
Theorem read_all_keys :
  forall (self : SensorManager.t) (w : world) (d : gmap string (gmap string float)),
    consistent self ->
    outcome_of (SensorManager.read_all self w) = Return d ->
    SensorManager.is_not_None (d !! "shtc3") = SensorManager.enable_shtc3 self
    /\ SensorManager.is_not_None (d !! "stc31c")
       = SensorManager.enable_stc31c self && SensorManager.enable_shtc3 self
    /\ SensorManager.is_not_None (d !! "sps30") = SensorManager.enable_sps30 self.
Proof.
  intros self w d Hc Hd. pose proof (read_all_outcome self w Hc) as H.
  destruct (SensorManager.read_all self w) as [[[d0 | e0] self'] w']; cbn in Hd.
  - injection Hd as <-. destruct H as (_ & H). exact H.
  - discriminate Hd.
Qed.

Lemma read_all_keys_witness :
  SensorManager.is_not_None (bench_reading !! "shtc3") = true
  /\ SensorManager.is_not_None (bench_reading !! "stc31c") = true
  /\ SensorManager.is_not_None (bench_reading !! "sps30") = true.
Proof.
  apply (read_all_keys (fst (manager_on_bench 2 0 0)) (snd (manager_on_bench 2 0 0))
           bench_reading).
  - repeat split; intros _; reflexivity.
  - vm_compute. reflexivity.
Defined.

(** ** The compensation sample *)

Lemma shtc3_read_high_ok :
  forall (s : SHTC3Sensor.t) (w : world),
    SHTC3Sensor._initialized s = true ->
    status (driver w (trace w) sht4x_measure_high_precision) = 0 ->
    SHTC3Sensor.read None None "high" s w
    = (Return (<["temperature" :=
                   fst (out_floats (driver w (trace w) sht4x_measure_high_precision))]>
                 (<["relative_humidity" :=
                      snd (out_floats (driver w (trace w) sht4x_measure_high_precision))]>
                    ∅)),
       s, emit (Bus sht4x_measure_high_precision
                  (driver w (trace w) sht4x_measure_high_precision)) w).
Proof.
  intros s w Hinit Hst. unfold SHTC3Sensor.read. unfold_monad.
  rewrite Hinit. cbn. rewrite Hst. cbn.
  destruct (out_floats _) as [t h]. reflexivity.
Qed.

Lemma sample_lookup :
  forall t h : float,
    SensorManager.truthy
      (Some (<["temperature" := t]> (<["relative_humidity" := h]> ∅))) = true
    /\ (<["temperature" := t]> (<["relative_humidity" := h]> ∅) : gmap string float)
       !! "temperature" = Some t
    /\ (<["temperature" := t]> (<["relative_humidity" := h]> ∅) : gmap string float)
       !! "relative_humidity" = Some h.
Proof. intros t h. repeat split; reflexivity. Qed.

Lemma stc31c_read_commands :
  forall (t h : float) (s : STC31CSensor.t) (w : world),
    STC31CSensor._initialized s = true ->
    let r1 := driver w (trace w) (stc3x_set_relative_humidity h) in
    let w1 := emit (Bus (stc3x_set_relative_humidity h) r1) w in
    let r2 := driver w1 (trace w1) (stc3x_set_temperature t) in
    grows w1 (world_of (STC31CSensor.read (Some t) (Some h) s w))
    /\ (status r1 = 0 ->
        grows (emit (Bus (stc3x_set_temperature t) r2) w1)
          (world_of (STC31CSensor.read (Some t) (Some h) s w))).
Proof.
  intros t h s w Hinit r1 w1 r2. unfold STC31CSensor.read. unfold_monad.
  rewrite Hinit. cbn. fold r1. fold w1.
  destruct (status r1 =? 0) eqn:Hr1; cbn.
  - fold r2.
    match goal with
    | |- grows _ ?W /\ _ =>
        assert (grows (emit (Bus (stc3x_set_temperature t) r2) w1) W) as Hstrong
    end.
    { repeat (branch; cbn); try (destruct (out_floats _); cbn); eexists; cbn;
        repeat first [ apply trace_base | apply trace_later ]. }
    split; [ | intros _; exact Hstrong ].
    eapply grows_trans; [ apply grows_emit | exact Hstrong ].
  - split; [ apply grows_refl | ].
    intros Hz. rewrite Hz in Hr1. discriminate Hr1.
Qed.

Lemma sps30_read_frame :
  forall temperature humidity : option float,
    frame any_change (SPS30Sensor.read temperature humidity).
Proof. intros temperature humidity. unfold SPS30Sensor.read. frame_auto. Qed.

(** X5: with the CO2 and temperature/humidity sensors enabled and
    initialised, when the temperature/humidity measurement answers 0,
    the very next bus command of [read_all] is the humidity compensation of
    the CO2 sensor, carrying the humidity just measured; and if that
    command answers 0, the next one is the temperature compensation,
    carrying the temperature just measured. *)
Theorem read_all_forwards_fresh_sample :
  forall (self : SensorManager.t) (w : world)
         (sh : SHTC3Sensor.t) (st : STC31CSensor.t),
    SensorManager.enable_shtc3 self = true ->
    SensorManager.enable_stc31c self = true ->
    SensorManager.shtc3 self = Some sh ->
    SensorManager.stc31c self = Some st ->
    SHTC3Sensor._initialized sh = true ->
    STC31CSensor._initialized st = true ->
    let r0 := driver w (trace w) sht4x_measure_high_precision in
    status r0 = 0 ->
    let w1 := emit (Bus sht4x_measure_high_precision r0) w in
    let t := fst (out_floats r0) in
    let h := snd (out_floats r0) in
    let r1 := driver w1 (trace w1) (stc3x_set_relative_humidity h) in
    let w2 := emit (Bus (stc3x_set_relative_humidity h) r1) w1 in
    let r2 := driver w2 (trace w2) (stc3x_set_temperature t) in
    grows w2 (world_of (SensorManager.read_all self w))
    /\ (status r1 = 0 ->
        grows (emit (Bus (stc3x_set_temperature t) r2) w2)
          (world_of (SensorManager.read_all self w))).
Proof.
  intros [e1 e2 e3 o1 o2 o3] w sh st He2 He1 Hsh Hst Hish Hist r0 Hr0 w1 t h r1 w2 r2.
  cbn in He2, He1, Hsh, Hst. subst e1 e2 o1 o2.
  destruct (sample_lookup t h) as (Htruthy & Ht & Hh).
  pose proof (stc31c_read_commands t h st w1 Hist) as Hco2.
  cbv zeta in Hco2. fold r1 w2 r2 in Hco2.
  assert (forall wx, grows w2 wx /\ (status r1 = 0 ->
                       grows (emit (Bus (stc3x_set_temperature t) r2) w2) wx) ->
          forall wy, grows wx wy ->
                     grows w2 wy /\ (status r1 = 0 ->
                       grows (emit (Bus (stc3x_set_temperature t) r2) w2) wy)) as Hext.
  { intros wx [Ha Hb] wy Hxy. split; [ now apply grows_trans with wx | ].
    intros Hz. apply grows_trans with wx; [ now apply Hb | exact Hxy ]. }
  unfold SensorManager.read_all, SensorManager.on_stc31c, SensorManager.on_shtc3,
    SensorManager.on_sps30, SensorManager.getitem.
  unfold_monad.
  cbn -[SHTC3Sensor.read STC31CSensor.read SPS30Sensor.read SensorManager.truthy lookup].
  rewrite (shtc3_read_high_ok sh w Hish Hr0). fold r0 w1 t h.
  cbn -[SHTC3Sensor.read STC31CSensor.read SPS30Sensor.read SensorManager.truthy lookup].
  rewrite Htruthy, Ht.
  cbn -[SHTC3Sensor.read STC31CSensor.read SPS30Sensor.read SensorManager.truthy lookup].
  rewrite Hh.
  cbn -[SHTC3Sensor.read STC31CSensor.read SPS30Sensor.read SensorManager.truthy lookup].
  apply (Hext (world_of (STC31CSensor.read (Some t) (Some h) st w1)) Hco2).
  destruct (STC31CSensor.read (Some t) (Some h) st w1) as [[[a | e] s'] wx];
    cbn -[SPS30Sensor.read]; [ | apply grows_refl ].
  destruct e3; cbn -[SPS30Sensor.read]; [ | apply grows_refl ].
  destruct o3 as [s3 | ]; cbn -[SPS30Sensor.read]; [ | apply grows_refl ].
  pose proof (sps30_read_frame None None s3 wx) as [_ Hg].
  destruct (SPS30Sensor.read None None s3 wx) as [[[d | e] s3'] wy]; exact Hg.
Qed.

Lemma read_all_forwards_fresh_sample_witness :
  grows
    (emit (Bus (stc3x_set_temperature 25) (ok OutNothing))
       (emit (Bus (stc3x_set_relative_humidity 50) (ok OutNothing))
          (emit (Bus sht4x_measure_high_precision (ok (OutFloats 25 50)))
             (snd (manager_on_bench 2 0 0)))))
    (world_of (SensorManager.read_all (fst (manager_on_bench 2 0 0))
                 (snd (manager_on_bench 2 0 0)))).
Proof.
  apply (proj2 (read_all_forwards_fresh_sample
                  (fst (manager_on_bench 2 0 0)) (snd (manager_on_bench 2 0 0))
                  (SHTC3Sensor.set_initialized true
                     (SHTC3Sensor.__init__ SHTC3Sensor.default_i2c_address))
                  (STC31CSensor.set_initialized true (STC31CSensor.__init__ false))
                  eq_refl eq_refl eq_refl eq_refl eq_refl eq_refl eq_refl)).
  reflexivity.
Defined.

(** ** Collecting the information records *)

Lemma stc31c_get_info_outcome :
  forall (s : STC31CSensor.t) (w : world),
    match STC31CSensor.get_info s w with
    | (Return _, s', _) => s' = s
    | (Raise e, s', _) => s' = s /\ is_ReadError e = true
    end.
Proof.
  intros s w. unfold STC31CSensor.get_info. exec; try (split; reflexivity).
  destruct (out_product _). reflexivity.
Qed.

Lemma shtc3_get_info_outcome :
  forall (s : SHTC3Sensor.t) (w : world),
    match SHTC3Sensor.get_info s w with
    | (Return _, s', _) => s' = s
    | (Raise e, s', _) => s' = s /\ is_ReadError e = true
    end.
Proof.
  intros s w. unfold SHTC3Sensor.get_info. exec; try (split; reflexivity); reflexivity.
Qed.

Lemma sps30_get_info_outcome :
  forall (s : SPS30Sensor.t) (w : world),
    exists d, SPS30Sensor.get_info s w = (Return d, s, w).
Proof. intros s w. unfold SPS30Sensor.get_info. unfold_monad. eauto. Qed.

Ltac keep_get_info :=
  cbn -[STC31CSensor.get_info SHTC3Sensor.get_info SPS30Sensor.get_info] in *.

Ltac sensor_get_info :=
  match goal with
  | |- context [STC31CSensor.get_info ?s ?w] =>
      let H := fresh "Hstc" in
      pose proof (stc31c_get_info_outcome s w) as H;
      destruct (STC31CSensor.get_info s w) as [[[? | ?] ?] ?];
      cbv beta iota in H; [ subst | destruct H as (-> & ?) ]
  | |- context [SHTC3Sensor.get_info ?s ?w] =>
      let H := fresh "Hsht" in
      pose proof (shtc3_get_info_outcome s w) as H;
      destruct (SHTC3Sensor.get_info s w) as [[[? | ?] ?] ?];
      cbv beta iota in H; [ subst | destruct H as (-> & ?) ]
  | |- context [SPS30Sensor.get_info ?s ?w] =>
      let H := fresh "Hsps" in
      destruct (sps30_get_info_outcome s w) as [? H]; rewrite H; clear H
  end.

Lemma get_all_info_outcome :
  forall (self : SensorManager.t) (w : world),
    consistent self ->
    match SensorManager.get_all_info self w with
    | (Return d, self', _) =>
        self' = self
        /\ SensorManager.is_not_None (d !! "stc31c") = SensorManager.enable_stc31c self
        /\ SensorManager.is_not_None (d !! "shtc3") = SensorManager.enable_shtc3 self
        /\ SensorManager.is_not_None (d !! "sps30") = SensorManager.enable_sps30 self
    | (Raise e, self', _) => self' = self /\ is_ReadError e = true
    end.
Proof.
  intros [e1 e2 e3 o1 o2 o3] w (H1 & H2 & H3). cbn in H1, H2, H3.
  unfold SensorManager.get_all_info, SensorManager.on_stc31c, SensorManager.on_shtc3,
    SensorManager.on_sps30.
  unfold_monad.
  destruct e1, o1 as [s1 | ]; try (discriminate H1; reflexivity);
    destruct e2, o2 as [s2 | ]; try (discriminate H2; reflexivity);
    destruct e3, o3 as [s3 | ]; try (discriminate H3; reflexivity);
    keep_get_info; repeat (sensor_get_info; keep_get_info);
    repeat split; try reflexivity; try assumption.
Qed.

Lemma get_all_info_co2_fault :
  forall (self : SensorManager.t) (w : world) (st : STC31CSensor.t) (e : exn),
    SensorManager.enable_stc31c self = true ->
    SensorManager.stc31c self = Some st ->
    outcome_of (STC31CSensor.get_info st w) = Raise e ->
    outcome_of (SensorManager.get_all_info self w) = Raise e
    /\ world_of (SensorManager.get_all_info self w)
       = world_of (STC31CSensor.get_info st w).
Proof.
  intros [e1 e2 e3 o1 o2 o3] w st e He1 Hst Hraise. cbn in He1, Hst. subst e1 o1.
  unfold SensorManager.get_all_info, SensorManager.on_stc31c.
  unfold_monad. keep_get_info.
  destruct (STC31CSensor.get_info st w) as [[[d | e0] st'] w'];
    cbn in Hraise; [ discriminate Hraise | ].
  injection Hraise as ->. split; reflexivity.
Qed.

Lemma get_all_info_temp_humidity_fault :
  forall (self : SensorManager.t) (w w1 : world) (sh : SHTC3Sensor.t) (e : exn),
    after_co2_info self w = Some w1 ->
    SensorManager.enable_shtc3 self = true ->
    SensorManager.shtc3 self = Some sh ->
    outcome_of (SHTC3Sensor.get_info sh w1) = Raise e ->
    outcome_of (SensorManager.get_all_info self w) = Raise e
    /\ world_of (SensorManager.get_all_info self w)
       = world_of (SHTC3Sensor.get_info sh w1).
Proof.
  intros [e1 e2 e3 o1 o2 o3] w w1 sh e Hco2 He2 Hsh Hraise.
  unfold after_co2_info in Hco2. keep_get_info. subst e2 o2.
  unfold SensorManager.get_all_info, SensorManager.on_stc31c, SensorManager.on_shtc3.
  unfold_monad.
  destruct e1; [ destruct o1 as [st | ]; [ | discriminate Hco2 ] | ]; keep_get_info.
  - destruct (STC31CSensor.get_info st w) as [[[d | e0] st'] w'];
      cbv beta iota in Hco2; [ | discriminate Hco2 ].
    injection Hco2 as ->. keep_get_info.
    destruct (SHTC3Sensor.get_info sh w1) as [[[d' | e0] sh'] w''];
      cbn in Hraise; [ discriminate Hraise | ].
    injection Hraise as ->. split; reflexivity.
  - injection Hco2 as ->.
    destruct (SHTC3Sensor.get_info sh w1) as [[[d' | e0] sh'] w''];
      cbn in Hraise; [ discriminate Hraise | ].
    injection Hraise as ->. split; reflexivity.
Qed.

(** X6: on a manager whose enabled sensors exist, [get_all_info] leaves
    the manager and its machines as they were; the only exceptions it
    raises are [ReadError]s; and when it returns, the result has one key
    per enabled sensor and no other of the three.  It catches nothing: if
    [get_info] of the enabled CO2 sensor raises, [get_all_info] raises that
    same exception at once, issuing no further command; and if the CO2
    step is over (the sensor is disabled, or its [get_info] returned) and
    [get_info] of the enabled temperature/humidity sensor raises,
    [get_all_info] raises that exception, again issuing no further
    command. *)
Theorem get_all_info_keys_and_errors :
  forall (self : SensorManager.t) (w : world),
    consistent self ->
    state_of (SensorManager.get_all_info self w) = self
    /\ (forall e, outcome_of (SensorManager.get_all_info self w) = Raise e ->
                  is_ReadError e = true)
    /\ (forall d, outcome_of (SensorManager.get_all_info self w) = Return d ->
                  SensorManager.is_not_None (d !! "stc31c")
                  = SensorManager.enable_stc31c self
                  /\ SensorManager.is_not_None (d !! "shtc3")
                     = SensorManager.enable_shtc3 self
                  /\ SensorManager.is_not_None (d !! "sps30")
                     = SensorManager.enable_sps30 self)
    /\ (forall (st : STC31CSensor.t) (e : exn),
           SensorManager.enable_stc31c self = true ->
           SensorManager.stc31c self = Some st ->
           outcome_of (STC31CSensor.get_info st w) = Raise e ->
           outcome_of (SensorManager.get_all_info self w) = Raise e
           /\ world_of (SensorManager.get_all_info self w)
              = world_of (STC31CSensor.get_info st w))
    /\ (forall (w1 : world) (sh : SHTC3Sensor.t) (e : exn),
           after_co2_info self w = Some w1 ->
           SensorManager.enable_shtc3 self = true ->
           SensorManager.shtc3 self = Some sh ->
           outcome_of (SHTC3Sensor.get_info sh w1) = Raise e ->
           outcome_of (SensorManager.get_all_info self w) = Raise e
           /\ world_of (SensorManager.get_all_info self w)
              = world_of (SHTC3Sensor.get_info sh w1)).
Proof.
  intros self w Hc.
  assert (state_of (SensorManager.get_all_info self w) = self
          /\ (forall e, outcome_of (SensorManager.get_all_info self w) = Raise e ->
                        is_ReadError e = true)
          /\ (forall d, outcome_of (SensorManager.get_all_info self w) = Return d ->
                        SensorManager.is_not_None (d !! "stc31c")
                        = SensorManager.enable_stc31c self
                        /\ SensorManager.is_not_None (d !! "shtc3")
                           = SensorManager.enable_shtc3 self
                        /\ SensorManager.is_not_None (d !! "sps30")
                           = SensorManager.enable_sps30 self)) as (Hs & He & Hk).
  { pose proof (get_all_info_outcome self w Hc) as H.
    destruct (SensorManager.get_all_info self w) as [[[d0 | e0] self'] w']; cbn.
    - destruct H as (-> & Hkeys). split; [ reflexivity | split ].
      + intros e He. discriminate He.
      + intros d Hd. injection Hd as <-. exact Hkeys.
    - destruct H as (-> & He0). split; [ reflexivity | split ].
      + intros e He. injection He as <-. exact He0.
      + intros d Hd. discriminate Hd. }
  split; [ exact Hs | split; [ exact He | split; [ exact Hk | split ] ] ].
  - intros st e. apply get_all_info_co2_fault.
  - intros w1 sh e. apply get_all_info_temp_humidity_fault.
Qed.

Lemma get_all_info_keys_and_errors_witness :
  outcome_of (SensorManager.get_all_info (fst (manager_on_bench 2 0 0))
                (fresh_world bench_co2_fault))
  = Raise (SensorError ReadError "STC31-C" "Failed to retrieve product info"
             (Some (-7)) [("operation", DStr "stc3x_get_product_id")])
  /\ world_of (SensorManager.get_all_info (fst (manager_on_bench 2 0 0))
                 (fresh_world bench_co2_fault))
     = world_of (STC31CSensor.get_info
                   (STC31CSensor.set_initialized true (STC31CSensor.__init__ false))
                   (fresh_world bench_co2_fault)).
Proof.
  apply (proj1 (proj2 (proj2 (proj2
           (get_all_info_keys_and_errors
              (fst (manager_on_bench 2 0 0)) (fresh_world bench_co2_fault)
              (conj (fun _ => eq_refl) (conj (fun _ => eq_refl) (fun _ => eq_refl)))))))
           (STC31CSensor.set_initialized true (STC31CSensor.__init__ false)));
    reflexivity.
Defined.

Lemma bulk_operations_isolate_faults_witness :
  SensorManager.sleep_all (fst (manager_on_bench 2 0 0)) (fresh_world bench_co2_fault)
  = (Return tt,
     SensorManager.set_sps30
       (Some (SPS30Sensor.set_sleeping true
                (SPS30Sensor.set_measurement_started false (fst (sps30_on_bench 2 0)))))
       (fst (manager_on_bench 2 0 0)),
     {| driver := bench_co2_fault;
        trace :=
          [Bus sps30_sleep (ok OutNothing);
           Bus sps30_stop_measurement (ok OutNothing);
           Log WARNING "Failed to put STC31C to sleep: %s"
             (Some (SensorError ReadError "STC31-C" "Entering sleep mode failed"
                      (Some (-8)) [("operation", DStr "stc3x_enter_sleep_mode")]));
           Bus stc3x_enter_sleep_mode {| status := -8; out := OutNothing |}] |}).
Proof.
  rewrite (proj1 (bulk_operations_isolate_faults
                    (fst (manager_on_bench 2 0 0)) (fresh_world bench_co2_fault))).
  reflexivity.
Defined.

(** ** What an exception tells about the bus *)

Lemma nonzero_negb : forall z : Z, negb (z =? 0) = true -> z <> 0.
Proof. intros z H Hz. subst z. discriminate H. Qed.

Lemma nonzero_eqb : forall z : Z, (z =? 0) = false -> z <> 0.
Proof. intros z H Hz. subst z. discriminate H. Qed.

Lemma nonzero_ltb : forall z : Z, (z <? 0) = true -> z <> 0.
Proof. intros z H Hz. subst z. discriminate H. Qed.

Ltac nonzero :=
  first [ apply nonzero_negb; assumption
        | apply nonzero_eqb; assumption
        | apply nonzero_ltb; assumption ].

Ltac report :=
  let He := fresh "He" in
  intros He; cbn in He; try discriminate He;
  injection He as <-; cbn;
  first
    [ reflexivity
    | do 2 eexists; split; [ reflexivity | apply Z.eqb_eq; assumption ]
    | split;
      [ reflexivity
      | split;
        [ eexists; left; reflexivity
        | first
            [ left; split; reflexivity
            | right; do 3 eexists;
              split; [ reflexivity | split; [ reflexivity | nonzero ] ] ] ] ] ].

Lemma sps30_errors_report_bus :
  forall (op : SPS30Sensor.method) (s : SPS30Sensor.t) (w : world) (e : exn),
    outcome_of (SPS30Sensor.dispatch op s w) = Raise e ->
    reports_bus "SPS30" w (world_of (SPS30Sensor.dispatch op s w)) e.
Proof.
  intros op s w e.
  destruct op; unfold SPS30Sensor.dispatch, SPS30Sensor.discard;
    unfold SPS30Sensor.initialize, SPS30Sensor.stop_measurement, SPS30Sensor.read,
      SPS30Sensor.sleep, SPS30Sensor.wake_up, SPS30Sensor.start_manual_fan_cleaning,
      SPS30Sensor.set_fan_auto_cleaning_interval_days,
      SPS30Sensor.get_fan_auto_cleaning_interval_days, SPS30Sensor.reset,
      SPS30Sensor.close, SPS30Sensor.get_info;
    exec; report.
Qed.

Lemma stc31c_errors_report_bus :
  forall (op : STC31CSensor.method) (s : STC31CSensor.t) (w : world) (e : exn),
    outcome_of (STC31CSensor.dispatch op s w) = Raise e ->
    reports_bus "STC31-C" w (world_of (STC31CSensor.dispatch op s w)) e.
Proof.
  intros op s w e.
  destruct op as [ | [t | ] [h | ] | | | | | | ];
    unfold STC31CSensor.dispatch, STC31CSensor.discard;
    unfold STC31CSensor.initialize, STC31CSensor.read, STC31CSensor.get_info,
      STC31CSensor.forced_recalibration, STC31CSensor.enable_automatic_self_calibration,
      STC31CSensor.disable_automatic_self_calibration, STC31CSensor.sleep,
      STC31CSensor.wake_up;
    exec; try (destruct (out_floats _); cbn); try (destruct (out_product _); cbn);
    report.
Qed.

Lemma shtc3_errors_report_bus :
  forall (op : SHTC3Sensor.method) (s : SHTC3Sensor.t) (w : world) (e : exn),
    outcome_of (SHTC3Sensor.dispatch op s w) = Raise e ->
    reports_bus "SHTC3" w (world_of (SHTC3Sensor.dispatch op s w)) e.
Proof.
  intros op s w e.
  destruct op; unfold SHTC3Sensor.dispatch, SHTC3Sensor.discard;
    unfold SHTC3Sensor.initialize, SHTC3Sensor.read, SHTC3Sensor.get_info,
      SHTC3Sensor.soft_reset, SHTC3Sensor.sleep, SHTC3Sensor.wake_up;
    exec; try (destruct (out_floats _); cbn); report.
Qed.

(** X7: whichever public method of whichever sensor raises, and whatever
    the library answered, the exception is one of four kinds.  A
    [ValueError], or the [ArgumentError] of an address [ctypes] cannot
    pass, raised before any bus command; the [UnicodeDecodeError] of a
    serial number that is not UTF-8, raised right after the serial number
    request answered 0; or a sensor error that names its sensor and the
    operation and whose code tells what happened on the bus: -1 when the
    call was refused without any command (the trace is as it was), and
    otherwise the status, never 0, of the command issued last. *)
Theorem sensor_errors_report_bus :
  (forall (op : STC31CSensor.method) (s : STC31CSensor.t) (w : world) (e : exn),
      outcome_of (STC31CSensor.dispatch op s w) = Raise e ->
      reports_bus "STC31-C" w (world_of (STC31CSensor.dispatch op s w)) e)
  /\ (forall (op : SHTC3Sensor.method) (s : SHTC3Sensor.t) (w : world) (e : exn),
         outcome_of (SHTC3Sensor.dispatch op s w) = Raise e ->
         reports_bus "SHTC3" w (world_of (SHTC3Sensor.dispatch op s w)) e)
  /\ (forall (op : SPS30Sensor.method) (s : SPS30Sensor.t) (w : world) (e : exn),
         outcome_of (SPS30Sensor.dispatch op s w) = Raise e ->
         reports_bus "SPS30" w (world_of (SPS30Sensor.dispatch op s w)) e).
Proof.
  split; [ exact stc31c_errors_report_bus | split ].
  - exact shtc3_errors_report_bus.
  - exact sps30_errors_report_bus.
Qed.

Lemma sensor_errors_report_bus_witness :
  reports_bus "SPS30" (fresh_world bench_probe_fault)
    (world_of (SPS30Sensor.dispatch (SPS30Sensor.Initialize 4) SPS30Sensor.__init__
                 (fresh_world bench_probe_fault)))
    (SensorError InitializationError "SPS30" "Failed to probe SPS30 sensor"
       (Some (-2)) [("operation", DStr "sps30_probe")])
  /\ reports_bus "SPS30" (fresh_world bench_serial_fault)
       (world_of (SPS30Sensor.dispatch (SPS30Sensor.Initialize 4) SPS30Sensor.__init__
                    (fresh_world bench_serial_fault)))
       UnicodeDecodeError
  /\ reports_bus "SHTC3" (fresh_world quiet_driver)
       (world_of (SHTC3Sensor.dispatch SHTC3Sensor.Initialize
                    (SHTC3Sensor.__init__ (2 ^ 64)) (fresh_world quiet_driver)))
       ArgumentError.
Proof.
  split; [ | split ].
  - apply (proj2 (proj2 sensor_errors_report_bus) (SPS30Sensor.Initialize 4)
             SPS30Sensor.__init__ (fresh_world bench_probe_fault)).
    reflexivity.
  - apply (proj2 (proj2 sensor_errors_report_bus) (SPS30Sensor.Initialize 4)
             SPS30Sensor.__init__ (fresh_world bench_serial_fault)).
    reflexivity.
  - apply (proj1 (proj2 sensor_errors_report_bus) SHTC3Sensor.Initialize
             (SHTC3Sensor.__init__ (2 ^ 64)) (fresh_world quiet_driver)).
    reflexivity.
Defined.

(** ** Initialisation, step by step *)

(** X8: [initialize] of the particulate machine.  When it returns, the
    machine is initialised, measuring, awake, with an open UART and a
    version record, and the bus saw the six commands in order (open, probe,
    read version, get serial, set the cleaning interval truncated to eight
    bits, start measurement) followed by the 1.1 s delay.  When it raises,
    the initialised, sleeping and measuring flags are as before the call;
    if opening the UART failed the machine is entirely unchanged, and if it
    succeeded the UART flag is left set. *)
Theorem sps30_initialize_steps :
  forall (auto_clean_days : Z) (s : SPS30Sensor.t) (w : world),
    match SPS30Sensor.initialize auto_clean_days s w with
    | (Return _, s', w') =>
        SPS30Sensor._initialized s' = true
        /\ SPS30Sensor._uart_open s' = true
        /\ SPS30Sensor._measurement_started s' = true
        /\ SPS30Sensor._sleeping s' = false
        /\ (exists v, SPS30Sensor.version_info s' = Some v)
        /\ exists r1 r2 r3 r4 r5 r6,
            trace w'
            = Delay 1100
              :: Bus sps30_start_measurement r6
              :: Bus (sps30_set_fan_auto_cleaning_interval_days
                        (auto_clean_days mod 256)) r5
              :: Bus sps30_get_serial r4
              :: Bus sps30_read_version r3
              :: Bus sps30_probe r2
              :: Bus sensirion_uart_open r1
              :: trace w
    | (Raise e, s', w') =>
        SPS30Sensor._initialized s' = SPS30Sensor._initialized s
        /\ SPS30Sensor._sleeping s' = SPS30Sensor._sleeping s
        /\ SPS30Sensor._measurement_started s' = SPS30Sensor._measurement_started s
        /\ (if status (driver w (trace w) sensirion_uart_open) =? 0
            then SPS30Sensor._uart_open s' = true
            else s' = s)
    end.
Proof.
  intros d s w. unfold SPS30Sensor.initialize. unfold_monad. cbn.
  destruct (status (driver w (trace w) sensirion_uart_open) =? 0) eqn:Hopen; cbn;
    [ | repeat split; reflexivity ].
  repeat (branch; cbn); repeat split; try reflexivity; eauto 10.
Qed.

(** X9: [initialize] of the CO2 machine.  When it raises, the machine is
    exactly as before.  When it returns, the machine is initialised and
    awake, the self-calibration flag is as it was, and the bus saw, in
    order, the I2C initialisation, [stc3x_init] with address 0x29, the
    binary gas 19, then the command enabling self-calibration if the flag
    is set and the one disabling it otherwise, followed by delays of 10 ms
    and 50 ms. *)
Theorem stc31c_initialize_steps :
  forall (s : STC31CSensor.t) (w : world),
    match STC31CSensor.initialize s w with
    | (Return _, s', w') =>
        s' = STC31CSensor.set_sleeping false (STC31CSensor.set_initialized true s)
        /\ exists r1 r2 r3 r4,
            trace w'
            = Delay 50 :: Delay 10
              :: Bus (if STC31CSensor._enable_asc s
                      then stc3x_enable_automatic_self_calibration
                      else stc3x_disable_automatic_self_calibration) r4
              :: Bus (stc3x_set_binary_gas 19) r3
              :: Bus (stc3x_init 0x29) r2
              :: Bus sensirion_i2c_hal_init r1
              :: trace w
    | (Raise e, s', w') => s' = s
    end.
Proof.
  intros s w.
  unfold STC31CSensor.initialize, STC31CSensor.enable_automatic_self_calibration,
    STC31CSensor.disable_automatic_self_calibration.
  exec; try reflexivity; (split; [ reflexivity | eauto 10 ]).
Qed.


(** ** Measurement of the particulate machine *)

Lemma sps30_idle_dispatch :
  forall (op : SPS30Sensor.method) (s : SPS30Sensor.t) (w : world),
    SPS30Sensor.is_initialize op = false ->
    SPS30Sensor._measurement_started s = false ->
    SPS30Sensor._measurement_started (state_of (SPS30Sensor.dispatch op s w)) = false.
Proof.
  intros op s w Hop Hidle.
  destruct op; try discriminate Hop;
    unfold SPS30Sensor.dispatch, SPS30Sensor.discard;
    unfold SPS30Sensor.stop_measurement, SPS30Sensor.read,
      SPS30Sensor.sleep, SPS30Sensor.wake_up, SPS30Sensor.start_manual_fan_cleaning,
      SPS30Sensor.set_fan_auto_cleaning_interval_days,
      SPS30Sensor.get_fan_auto_cleaning_interval_days, SPS30Sensor.reset,
      SPS30Sensor.close, SPS30Sensor.get_info;
    unfold_monad; rewrite ?Hidle; cbn; repeat (branch; cbn); try exact Hidle;
    try reflexivity.
Qed.

Lemma sps30_idle_run :
  forall (ops : list SPS30Sensor.method) (sw : SPS30Sensor.t * world),
    forallb (fun op => negb (SPS30Sensor.is_initialize op)) ops = true ->
    SPS30Sensor._measurement_started (fst sw) = false ->
    SPS30Sensor._measurement_started (fst (SPS30Sensor.run ops sw)) = false.
Proof.
  unfold SPS30Sensor.run.
  induction ops as [ | op ops IH ]; intros [s w] Hops Hidle; cbn [fold_left].
  - exact Hidle.
  - cbn in Hops. apply andb_true_iff in Hops as [Hop Hops].
    apply IH; [ exact Hops | ].
    unfold SPS30Sensor.invoke. cbn [fst snd] in *.
    pose proof (sps30_idle_dispatch op s w) as Hstep.
    destruct (SPS30Sensor.dispatch op s w) as [[r s'] w']. cbn in Hstep.
    apply Hstep; [ | exact Hidle ]. now destruct (SPS30Sensor.is_initialize op).
Qed.

Lemma sps30_read_idle :
  forall (s : SPS30Sensor.t) (w : world) (temperature humidity : option float),
    SPS30Sensor._measurement_started s = false ->
    exists e, SPS30Sensor.read temperature humidity s w = (Raise e, s, w)
              /\ is_uninitialized_error e = true.
Proof.
  intros s w temperature humidity Hidle. unfold SPS30Sensor.read. unfold_monad.
  rewrite Hidle, orb_true_r. cbn. eauto.
Qed.

(** X11: the class has no method that starts measurement other than
    [initialize].  Once the measurement flag is cleared, it stays cleared
    through any sequence of public operations that does not contain
    [initialize], whatever the library answers, and [read] then raises a
    [ReadError] with code -1 without issuing a bus command. *)
Theorem sps30_measurement_restarts_only_by_initialize :
  forall (ops : list SPS30Sensor.method) (s : SPS30Sensor.t) (w : world)
         (temperature humidity : option float),
    forallb (fun op => negb (SPS30Sensor.is_initialize op)) ops = true ->
    SPS30Sensor._measurement_started s = false ->
    SPS30Sensor._measurement_started (fst (SPS30Sensor.run ops (s, w))) = false
    /\ exists e,
        SPS30Sensor.read temperature humidity
          (fst (SPS30Sensor.run ops (s, w))) (snd (SPS30Sensor.run ops (s, w)))
        = (Raise e, fst (SPS30Sensor.run ops (s, w)), snd (SPS30Sensor.run ops (s, w)))
        /\ is_uninitialized_error e = true.
Proof.
  intros ops s w temperature humidity Hops Hidle.
  pose proof (sps30_idle_run ops (s, w) Hops Hidle) as Hrun.
  split; [ exact Hrun | now apply sps30_read_idle ].
Qed.

Lemma sps30_measurement_restarts_only_by_initialize_witness :
  SPS30Sensor._measurement_started
    (fst (SPS30Sensor.run [SPS30Sensor.Sleep; SPS30Sensor.WakeUp; SPS30Sensor.Reset]
            (SPS30Sensor.set_measurement_started false (fst (sps30_on_bench 2 0)),
             snd (sps30_on_bench 2 0)))) = false.
Proof.
  apply (proj1 (sps30_measurement_restarts_only_by_initialize
                  [SPS30Sensor.Sleep; SPS30Sensor.WakeUp; SPS30Sensor.Reset]
                  (SPS30Sensor.set_measurement_started false (fst (sps30_on_bench 2 0)))
                  (snd (sps30_on_bench 2 0)) None None eq_refl eq_refl)).
Defined.

(** ** Sleeping and waking *)

(** X12: on an initialised, idle, awake particulate machine with firmware
    major version at least 2, if the sleep command answers 0 then [sleep]
    returns with only the sleeping flag set, and if the wake-up command
    then answers 0, [wake_up] returns with the machine exactly as it was
    before [sleep]; each call issues exactly its one command. *)
Theorem sps30_sleep_wake_round_trip :
  forall (s : SPS30Sensor.t) (w : world) (v : SPS30_VersionInfo),
    SPS30Sensor.version_info s = Some v ->
    2 <= firmware_major v ->
    SPS30Sensor._initialized s = true ->
    SPS30Sensor._measurement_started s = false ->
    SPS30Sensor._sleeping s = false ->
    let r1 := driver w (trace w) sps30_sleep in
    let w1 := emit (Bus sps30_sleep r1) w in
    let r2 := driver w1 (trace w1) sps30_wake_up in
    status r1 = 0 ->
    status r2 = 0 ->
    SPS30Sensor.sleep s w = (Return tt, SPS30Sensor.set_sleeping true s, w1)
    /\ SPS30Sensor.wake_up (SPS30Sensor.set_sleeping true s) w1
       = (Return tt, s, emit (Bus sps30_wake_up r2) w1).
Proof.
  intros [vi sn ini uo ms sl] w v Hv Hfw Hini Hms Hsl r1 w1 r2 Hr1 Hr2.
  cbn in Hv, Hini, Hms, Hsl. subst vi ini ms sl.
  assert ((firmware_major v <? 2) = false) as Hnew by now apply Z.ltb_ge.
  subst r1 w1 r2. cbn in Hr1, Hr2.
  unfold SPS30Sensor.sleep, SPS30Sensor.wake_up, SPS30Sensor.sleep_unsupported.
  unfold_monad. cbn. rewrite Hnew. cbn. rewrite Hr1. cbn. rewrite Hr2. cbn.
  split; reflexivity.
Qed.

Lemma sps30_sleep_wake_round_trip_witness :
  SPS30Sensor.sleep
    (SPS30Sensor.set_measurement_started false (fst (sps30_on_bench 2 0)))
    (snd (sps30_on_bench 2 0))
  = (Return tt,
     SPS30Sensor.set_sleeping true
       (SPS30Sensor.set_measurement_started false (fst (sps30_on_bench 2 0))),
     emit (Bus sps30_sleep (ok OutNothing)) (snd (sps30_on_bench 2 0))).
Proof.
  apply (proj1 (sps30_sleep_wake_round_trip
                  (SPS30Sensor.set_measurement_started false (fst (sps30_on_bench 2 0)))
                  (snd (sps30_on_bench 2 0))
                  {| firmware_major := 2; firmware_minor := 0; hardware_revision := 7;
                     shdlc_major := 2; shdlc_minor := 0 |}
                  eq_refl ltac:(discriminate) eq_refl eq_refl eq_refl eq_refl eq_refl)).
Defined.

(** X13: on an awake CO2 machine, if the two commands answer 0, [sleep]
    followed by [wake_up] gives back the machine as it was, each having
    issued exactly its one command.  And [read] never looks at the sleeping
    flag: it does on a sleeping machine exactly what it does on an awake
    one. *)
Theorem stc31c_sleep_wake_round_trip :
  forall (s : STC31CSensor.t) (w : world),
    let r1 := driver w (trace w) stc3x_enter_sleep_mode in
    let w1 := emit (Bus stc3x_enter_sleep_mode r1) w in
    let r2 := driver w1 (trace w1) stc3x_exit_sleep_mode in
    (STC31CSensor._sleeping s = false ->
     status r1 = 0 ->
     status r2 = 0 ->
     STC31CSensor.sleep s w = (Return tt, STC31CSensor.set_sleeping true s, w1)
     /\ STC31CSensor.wake_up (STC31CSensor.set_sleeping true s) w1
        = (Return tt, s, emit (Bus stc3x_exit_sleep_mode r2) w1))
    /\
    (forall (b : bool) (temperature humidity : option float),
        outcome_of (STC31CSensor.read temperature humidity
                      (STC31CSensor.set_sleeping b s) w)
        = outcome_of (STC31CSensor.read temperature humidity s w)
        /\ world_of (STC31CSensor.read temperature humidity
                       (STC31CSensor.set_sleeping b s) w)
           = world_of (STC31CSensor.read temperature humidity s w)).
Proof.
  intros [ini sl asc] w r1 w1 r2. split.
  - intros Hsl Hr1 Hr2. cbn in Hsl. subst sl r1 w1 r2. cbn in Hr1, Hr2.
    unfold STC31CSensor.sleep, STC31CSensor.wake_up. unfold_monad. cbn.
    rewrite Hr1. cbn. rewrite Hr2. cbn. split; reflexivity.
  - intros b temperature humidity. unfold STC31CSensor.read. unfold_monad. cbn.
    destruct ini; cbn; [ | split; reflexivity ].
    destruct temperature, humidity; cbn; try (split; reflexivity).
    repeat (branch; cbn); try (destruct (out_floats _); cbn); split; reflexivity.
Qed.

Lemma stc31c_sleep_wake_round_trip_witness :
  STC31CSensor.sleep (STC31CSensor.__init__ false) (fresh_world quiet_driver)
  = (Return tt, STC31CSensor.set_sleeping true (STC31CSensor.__init__ false),
     emit (Bus stc3x_enter_sleep_mode (ok OutNothing)) (fresh_world quiet_driver)).
Proof.
  apply (proj1 (proj1 (stc31c_sleep_wake_round_trip (STC31CSensor.__init__ false)
                         (fresh_world quiet_driver))
                  eq_refl eq_refl eq_refl)).
Defined.

(** ** Edge cases of the single-sensor calls *)

(** X14: [read] of the temperature/humidity machine ignores its
    [temperature] and [humidity] arguments; and on an initialised machine a
    [mode] other than "high", "medium" and "lowest" raises [ValueError]
    (not a [ReadError]) with the machine and the trace as they were: no
    measurement command is issued. *)
Theorem shtc3_read_mode_and_arguments :
  forall (s : SHTC3Sensor.t) (w : world) (temperature humidity : option float)
         (mode : string),
    SHTC3Sensor.read temperature humidity mode s w = SHTC3Sensor.read None None mode s w
    /\ (SHTC3Sensor._initialized s = true ->
        mode <> "high" -> mode <> "medium" -> mode <> "lowest" ->
        exists e, SHTC3Sensor.read temperature humidity mode s w = (Raise e, s, w)
                  /\ is_ValueError e = true /\ is_ReadError e = false).
Proof.
  intros s w temperature humidity mode. split; [ reflexivity | ].
  intros Hinit Hhigh Hmedium Hlowest.
  unfold SHTC3Sensor.read. unfold_monad. rewrite Hinit. cbn.
  apply String.eqb_neq in Hhigh, Hmedium, Hlowest.
  rewrite Hhigh, Hmedium, Hlowest. cbn. eauto.
Qed.

Lemma shtc3_read_mode_and_arguments_witness :
  exists e,
    SHTC3Sensor.read (Some 20%float) None "low"
      (SHTC3Sensor.set_initialized true
         (SHTC3Sensor.__init__ SHTC3Sensor.default_i2c_address))
      (fresh_world quiet_driver)
    = (Raise e,
       SHTC3Sensor.set_initialized true
         (SHTC3Sensor.__init__ SHTC3Sensor.default_i2c_address),
       fresh_world quiet_driver)
    /\ is_ValueError e = true /\ is_ReadError e = false.
Proof.
  apply (proj2 (shtc3_read_mode_and_arguments
                  (SHTC3Sensor.set_initialized true
                     (SHTC3Sensor.__init__ SHTC3Sensor.default_i2c_address))
                  (fresh_world quiet_driver) (Some 20%float) None "low"));
    [ reflexivity | discriminate | discriminate | discriminate ].
Defined.

(** X15: the queries change no machine.  [read] and [get_info] of each of
    the three sensors, and [get_fan_auto_cleaning_interval_days], leave the
    attributes of their object exactly as they were, whether they return or
    raise; [get_info] of the particulate sensor moreover always returns and
    issues no bus command. *)
Theorem queries_leave_machines_unchanged :
  forall w : world,
    (forall (s : STC31CSensor.t) temperature humidity,
        state_of (STC31CSensor.read temperature humidity s w) = s
        /\ state_of (STC31CSensor.get_info s w) = s)
    /\ (forall (s : SHTC3Sensor.t) temperature humidity mode,
           state_of (SHTC3Sensor.read temperature humidity mode s w) = s
           /\ state_of (SHTC3Sensor.get_info s w) = s)
    /\ (forall (s : SPS30Sensor.t) temperature humidity,
           state_of (SPS30Sensor.read temperature humidity s w) = s
           /\ state_of (SPS30Sensor.get_fan_auto_cleaning_interval_days s w) = s
           /\ exists d, SPS30Sensor.get_info s w = (Return d, s, w)).
Proof.
  intros w. split; [ | split ].
  - intros s temperature humidity. split.
    + unfold STC31CSensor.read. exec; try (destruct (out_floats _); cbn); reflexivity.
    + unfold STC31CSensor.get_info. exec; try (destruct (out_product _); cbn);
        reflexivity.
  - intros s temperature humidity mode. split.
    + unfold SHTC3Sensor.read. exec; try (destruct (out_floats _); cbn); reflexivity.
    + unfold SHTC3Sensor.get_info. exec; reflexivity.
  - intros s temperature humidity. split; [ | split ].
    + unfold SPS30Sensor.read. exec; reflexivity.
    + unfold SPS30Sensor.get_fan_auto_cleaning_interval_days. exec; reflexivity.
    + apply sps30_get_info_outcome.
Qed.

(** X16: the cleaning interval reaches the device through [c_uint8]: the
    command always carries a value between 0 and 255, and two intervals
    that differ by a multiple of 256 put the same command on the bus and
    meet the same fate, so an interval of 256 days is sent as 0. *)
Theorem sps30_cleaning_interval_wraps :
  forall (days k : Z) (s : SPS30Sensor.t) (w : world),
    (exists n r,
        0 <= n < 256
        /\ trace (world_of (SPS30Sensor.set_fan_auto_cleaning_interval_days days s w))
           = Bus (sps30_set_fan_auto_cleaning_interval_days n) r :: trace w)
    /\ world_of (SPS30Sensor.set_fan_auto_cleaning_interval_days (days + 256 * k) s w)
       = world_of (SPS30Sensor.set_fan_auto_cleaning_interval_days days s w)
    /\ is_not_raise
         (outcome_of (SPS30Sensor.set_fan_auto_cleaning_interval_days (days + 256 * k) s w))
       = is_not_raise
           (outcome_of (SPS30Sensor.set_fan_auto_cleaning_interval_days days s w)).
Proof.
  intros days k s w.
  assert ((days + 256 * k) mod 256 = days mod 256) as Hwrap.
  { rewrite Z.mul_comm. apply Z_mod_plus_full. }
  unfold SPS30Sensor.set_fan_auto_cleaning_interval_days. unfold_monad.
  change (2 ^ 8) with 256. rewrite Hwrap. split; [ | split ].
  - exists (days mod 256). eexists. split; [ apply Z.mod_pos_bound; lia | ].
    destruct (negb _); reflexivity.
  - destruct (negb _); reflexivity.
  - destruct (negb _); reflexivity.
Qed.

(** ** A sleep and wake cycle of the manager *)

Lemma stc31c_read_ok :
  forall (t h : float) (s : STC31CSensor.t) (w : world),
    always_ok w ->
    STC31CSensor._initialized s = true ->
    exists d w', STC31CSensor.read (Some t) (Some h) s w = (Return d, s, w').
Proof.
  intros t h s w Hok Hinit. unfold STC31CSensor.read. unfold_monad.
  rewrite Hinit. cbn. repeat (rewrite Hok; cbn).
  destruct (out_floats _). eauto.
Qed.

Lemma read_all_idle_particulate :
  forall (self : SensorManager.t) (w : world)
         (st : STC31CSensor.t) (sh : SHTC3Sensor.t) (sp : SPS30Sensor.t),
    always_ok w ->
    SensorManager.enable_stc31c self = true ->
    SensorManager.enable_shtc3 self = true ->
    SensorManager.enable_sps30 self = true ->
    SensorManager.stc31c self = Some st ->
    SensorManager.shtc3 self = Some sh ->
    SensorManager.sps30 self = Some sp ->
    STC31CSensor._initialized st = true ->
    SHTC3Sensor._initialized sh = true ->
    SPS30Sensor._measurement_started sp = false ->
    exists e, outcome_of (SensorManager.read_all self w) = Raise e
              /\ is_uninitialized_error e = true.
Proof.
  intros [e1 e2 e3 o1 o2 o3] w st sh sp Hok He1 He2 He3 Hst Hsh Hsp Hist Hish Hidle.
  cbn in He1, He2, He3, Hst, Hsh, Hsp. subst e1 e2 e3 o1 o2 o3.
  destruct (sample_lookup
              (fst (out_floats (driver w (trace w) sht4x_measure_high_precision)))
              (snd (out_floats (driver w (trace w) sht4x_measure_high_precision))))
    as (Htruthy & Ht & Hh).
  unfold SensorManager.read_all, SensorManager.on_stc31c, SensorManager.on_shtc3,
    SensorManager.on_sps30, SensorManager.getitem.
  unfold_monad.
  cbn -[SHTC3Sensor.read STC31CSensor.read SPS30Sensor.read SensorManager.truthy lookup].
  rewrite (shtc3_read_high_ok sh w Hish (Hok _ _)).
  cbn -[SHTC3Sensor.read STC31CSensor.read SPS30Sensor.read SensorManager.truthy lookup].
  rewrite Htruthy, Ht.
  cbn -[SHTC3Sensor.read STC31CSensor.read SPS30Sensor.read SensorManager.truthy lookup].
  rewrite Hh.
  cbn -[SHTC3Sensor.read STC31CSensor.read SPS30Sensor.read SensorManager.truthy lookup].
  match goal with
  | |- context [STC31CSensor.read (Some ?t) (Some ?h) st ?w1] =>
      destruct (stc31c_read_ok t h st w1) as (d & w2 & Hread);
      [ intros tr c; apply Hok | exact Hist | rewrite Hread ]
  end.
  cbn -[SPS30Sensor.read].
  destruct (sps30_read_idle sp w2 None None Hidle) as (e & Hsps & He).
  rewrite Hsps. cbn. eauto.
Qed.

(** X17: take a manager with the three sensors enabled and initialised,
    the particulate sensor measuring with firmware major version at least
    2, and a library that answers 0 to every command.  [sleep_all] stops
    the measurement and puts the particulate machine to sleep;
    [wake_up_all] wakes it but does not start the measurement again; so
    the [read_all] that follows raises the particulate sensor's
    [ReadError] with code -1 instead of returning readings. *)
Theorem sleep_wake_cycle_leaves_measurement_stopped :
  forall (self : SensorManager.t) (w : world)
         (st : STC31CSensor.t) (sh : SHTC3Sensor.t) (sp : SPS30Sensor.t)
         (v : SPS30_VersionInfo),
    always_ok w ->
    SensorManager.enable_stc31c self = true ->
    SensorManager.enable_shtc3 self = true ->
    SensorManager.enable_sps30 self = true ->
    SensorManager.stc31c self = Some st ->
    SensorManager.shtc3 self = Some sh ->
    SensorManager.sps30 self = Some sp ->
    STC31CSensor._initialized st = true ->
    SHTC3Sensor._initialized sh = true ->
    SPS30Sensor._initialized sp = true ->
    SPS30Sensor._measurement_started sp = true ->
    SPS30Sensor.version_info sp = Some v ->
    2 <= firmware_major v ->
    let slept := SensorManager.sleep_all self w in
    let woken := SensorManager.wake_up_all (state_of slept) (world_of slept) in
    SensorManager.sps30 (state_of slept)
    = Some (SPS30Sensor.set_sleeping true (SPS30Sensor.set_measurement_started false sp))
    /\ SensorManager.sps30 (state_of woken)
       = Some (SPS30Sensor.set_sleeping false
                 (SPS30Sensor.set_measurement_started false sp))
    /\ exists e,
        outcome_of (SensorManager.read_all (state_of woken) (world_of woken)) = Raise e
        /\ is_uninitialized_error e = true.
Proof.
  intros [e1 e2 e3 o1 o2 o3] w [ini1 sl1 asc] [addr ini2 sl2] [vi sn ini3 uo ms sl3] v
    Hok He1 He2 He3 Hst Hsh Hsp Hist Hish Hisp Hms Hv Hfw.
  cbn in He1, He2, He3, Hst, Hsh, Hsp, Hist, Hish, Hisp, Hms, Hv.
  subst e1 e2 e3 o1 o2 o3 ini1 ini2 ini3 ms vi.
  assert ((firmware_major v <? 2) = false) as Hnew by now apply Z.ltb_ge.
  cbv zeta.
  assert (exists w1,
             SensorManager.sleep_all
               {| SensorManager.enable_stc31c := true; SensorManager.enable_shtc3 := true;
                  SensorManager.enable_sps30 := true;
                  SensorManager.stc31c :=
                    Some {| STC31CSensor._initialized := true;
                            STC31CSensor._sleeping := sl1;
                            STC31CSensor._enable_asc := asc |};
                  SensorManager.shtc3 :=
                    Some {| SHTC3Sensor.i2c_address := addr;
                            SHTC3Sensor._initialized := true;
                            SHTC3Sensor._sleeping := sl2 |};
                  SensorManager.sps30 :=
                    Some {| SPS30Sensor.version_info := Some v;
                            SPS30Sensor.serial_number := sn;
                            SPS30Sensor._initialized := true;
                            SPS30Sensor._uart_open := uo;
                            SPS30Sensor._measurement_started := true;
                            SPS30Sensor._sleeping := sl3 |} |} w
             = (Return tt,
                {| SensorManager.enable_stc31c := true; SensorManager.enable_shtc3 := true;
                   SensorManager.enable_sps30 := true;
                   SensorManager.stc31c :=
                     Some {| STC31CSensor._initialized := true;
                             STC31CSensor._sleeping := true;
                             STC31CSensor._enable_asc := asc |};
                   SensorManager.shtc3 :=
                     Some {| SHTC3Sensor.i2c_address := addr;
                             SHTC3Sensor._initialized := true;
                             SHTC3Sensor._sleeping := sl2 |};
                   SensorManager.sps30 :=
                     Some {| SPS30Sensor.version_info := Some v;
                             SPS30Sensor.serial_number := sn;
                             SPS30Sensor._initialized := true;
                             SPS30Sensor._uart_open := uo;
                             SPS30Sensor._measurement_started := false;
                             SPS30Sensor._sleeping := true |} |}, w1)
             /\ driver w1 = driver w) as (w1 & Hsleep & Hd1).
  { unfold SensorManager.sleep_all, SensorManager.when, SensorManager.on_stc31c,
      SensorManager.on_shtc3, SensorManager.on_sps30, STC31CSensor.sleep,
      SHTC3Sensor.sleep, SPS30Sensor.stop_measurement, SPS30Sensor.sleep,
      SPS30Sensor.sleep_unsupported.
    unfold_monad. cbn. repeat (rewrite ?Hok, ?Hnew; cbn). eauto. }
  rewrite Hsleep. cbn [state_of world_of fst snd].
  assert (always_ok w1) as Hok1.
  { intros tr c. rewrite Hd1. apply Hok. }
  assert (exists w2,
             SensorManager.wake_up_all
               {| SensorManager.enable_stc31c := true; SensorManager.enable_shtc3 := true;
                  SensorManager.enable_sps30 := true;
                  SensorManager.stc31c :=
                    Some {| STC31CSensor._initialized := true;
                            STC31CSensor._sleeping := true;
                            STC31CSensor._enable_asc := asc |};
                  SensorManager.shtc3 :=
                    Some {| SHTC3Sensor.i2c_address := addr;
                            SHTC3Sensor._initialized := true;
                            SHTC3Sensor._sleeping := sl2 |};
                  SensorManager.sps30 :=
                    Some {| SPS30Sensor.version_info := Some v;
                            SPS30Sensor.serial_number := sn;
                            SPS30Sensor._initialized := true;
                            SPS30Sensor._uart_open := uo;
                            SPS30Sensor._measurement_started := false;
                            SPS30Sensor._sleeping := true |} |} w1
             = (Return tt,
                {| SensorManager.enable_stc31c := true; SensorManager.enable_shtc3 := true;
                   SensorManager.enable_sps30 := true;
                   SensorManager.stc31c :=
                     Some {| STC31CSensor._initialized := true;
                             STC31CSensor._sleeping := false;
                             STC31CSensor._enable_asc := asc |};
                   SensorManager.shtc3 :=
                     Some {| SHTC3Sensor.i2c_address := addr;
                             SHTC3Sensor._initialized := true;
                             SHTC3Sensor._sleeping := sl2 |};
                   SensorManager.sps30 :=
                     Some {| SPS30Sensor.version_info := Some v;
                             SPS30Sensor.serial_number := sn;
                             SPS30Sensor._initialized := true;
                             SPS30Sensor._uart_open := uo;
                             SPS30Sensor._measurement_started := false;
                             SPS30Sensor._sleeping := false |} |}, w2)
             /\ driver w2 = driver w1) as (w2 & Hwake & Hd2).
  { unfold SensorManager.wake_up_all, SensorManager.when, SensorManager.on_stc31c,
      SensorManager.on_shtc3, SensorManager.on_sps30, STC31CSensor.wake_up,
      SHTC3Sensor.wake_up, SPS30Sensor.wake_up, SPS30Sensor.sleep_unsupported.
    unfold_monad. cbn. repeat (rewrite ?Hok1, ?Hnew; cbn). eauto. }
  rewrite Hwake. cbn [state_of world_of fst snd SensorManager.sps30].
  split; [ reflexivity | split; [ reflexivity | ] ].
  eapply read_all_idle_particulate; try reflexivity.
  intros tr c. rewrite Hd2. apply Hok1.
Qed.

Lemma sleep_wake_cycle_leaves_measurement_stopped_witness :
  exists e,
    outcome_of
      (SensorManager.read_all
         (state_of (SensorManager.wake_up_all
                      (state_of (SensorManager.sleep_all (fst (manager_on_bench 2 0 0))
                                   (snd (manager_on_bench 2 0 0))))
                      (world_of (SensorManager.sleep_all (fst (manager_on_bench 2 0 0))
                                   (snd (manager_on_bench 2 0 0))))))
         (world_of (SensorManager.wake_up_all
                      (state_of (SensorManager.sleep_all (fst (manager_on_bench 2 0 0))
                                   (snd (manager_on_bench 2 0 0))))
                      (world_of (SensorManager.sleep_all (fst (manager_on_bench 2 0 0))
                                   (snd (manager_on_bench 2 0 0)))))))
    = Raise e
    /\ is_uninitialized_error e = true.
Proof.
  apply (proj2 (proj2 (sleep_wake_cycle_leaves_measurement_stopped
                         (fst (manager_on_bench 2 0 0)) (snd (manager_on_bench 2 0 0))
                         (STC31CSensor.set_initialized true (STC31CSensor.__init__ false))
                         (SHTC3Sensor.set_initialized true
                            (SHTC3Sensor.__init__ SHTC3Sensor.default_i2c_address))
                         (fst (sps30_on_bench 2 0))
                         {| firmware_major := 2; firmware_minor := 0;
                            hardware_revision := 7; shdlc_major := 2; shdlc_minor := 0 |}
                         (fun tr c => match c with sps30_probe => eq_refl | _ => eq_refl end)
                         eq_refl eq_refl eq_refl eq_refl eq_refl eq_refl
                         eq_refl eq_refl eq_refl eq_refl eq_refl
                         ltac:(discriminate)))).
Defined.

(** ** What the constructor stores *)

